(** * Code-Astra: the ledger and acquisition operations of [src/services/mockApi.ts]

    A shallow embedding of the [api] object of [src/services/mockApi.ts] over
    a model of the Firestore collections it reads and writes.

    - Documents are records ([src/types.ts]); the [users] and [products]
      collections are finite maps keyed by document id, the [transactions]
      and [requests] collections, which the code only ever extends with
      [addDoc], are kept in insertion order.
    - JavaScript numbers are modelled as integers ([Z]): balances, prices,
      counters and timestamps (milliseconds).
    - An [async] function is a tree of backend calls ([Async]); every
      awaited call is one atomic step on the store, and the stores between
      two steps are the ones another client can observe.
    - The functions of the [api] that only query the store
      ([getPublicProducts], [getUserSubmissions], [getTransactions],
      [getNotifications], [getAllProductsAdmin]) write nothing; they are
      functions of the store, given after the calls that write. *)

From stdpp Require Import gmap strings list fin_maps pretty sorting.

Local Open Scope Z_scope.

(** ** Data model ([src/types.ts]) *)

Inductive Role := USER | ADMIN.

Inductive RequestStatus := PENDING | APPROVED | REJECTED.

Module SavedFilter.
Record t := mk {
  id : string;
  label : string;
  searchTerm : string;
  category : string
}.
End SavedFilter.

Module NotificationSettings.
Record t := mk {
  emailNotifyApproval : bool;
  emailNotifyReview : bool;
  emailNotifyPurchase : bool
}.
End NotificationSettings.

Module ProMetrics.
Record t := mk {
  savedFees : Z;
  reputationMultiplier : Z;
  priorityQueueActive : bool;
  vaultAccessLevel : Z
}.
End ProMetrics.

(** Optional fields ([bio?], [avatar?], [proExpiry?], [proMetrics?]) are
    [option]s. *)
Module User.
Record t := mk {
  uid : string;
  name : string;
  email : string;
  bio : option string;
  role : Role;
  joinedAt : Z;
  wishlist : list string;
  savedFilters : list SavedFilter.t;
  walletBalance : Z;
  avatar : option string;
  reputation : Z;
  isPro : bool;
  proExpiry : option Z;
  notificationSettings : NotificationSettings.t;
  proMetrics : option ProMetrics.t
}.
End User.

Inductive TransactionType := deposit | purchase | withdrawal | subscription.

(** The stored fields of a transaction document; the document id is kept
    beside it ([WithId]). *)
Module Transaction.
Record t := mk {
  userId : string;
  amount : Z;
  type : TransactionType;
  description : string;
  createdAt : Z
}.
End Transaction.

Module Review.
Record t := mk {
  id : string;
  userId : string;
  userName : string;
  rating : Z;
  comment : string;
  createdAt : Z
}.
End Review.

(** The stored fields of a product document.  [rejected] is not part of the
    [Product] interface: it is the extra field [rejectProduct] writes, absent
    ([None]) until then. *)
Module Product.
Record t := mk {
  title : string;
  description : string;
  price : Z;
  previewImage : string;
  images : list string;
  mediafireLink : string;
  approved : bool;
  rejected : option bool;
  sellerId : string;
  sellerName : string;
  category : string;
  tags : list string;
  createdAt : Z;
  rating : Z;
  reviewCount : Z;
  salesCount : Z;
  viewCount : Z;
  downloadCount : Z;
  lastUpdate : Z;
  reviews : list Review.t;
  isPriority : option bool
}.
End Product.

Module Request.
Record t := mk {
  userId : string;
  productId : string;
  paymentProof : string;
  status : RequestStatus;
  createdAt : Z;
  approvedAt : option Z;
  isWalletPurchase : bool
}.
End Request.

(** [{ id: d.id, ...d.data() }]: a document read back with its id. *)
Record WithId (A : Type) := withId { docId : string; docData : A }.
Arguments withId {A} _ _.
Arguments docId {A} _.
Arguments docData {A} _.

(** ** Field updates written by [updateDoc]

    [updateDoc(ref, { f: v, ... })] replaces the listed fields and keeps the
    others; [increment(n)] adds [n] to a numeric field. *)

Definition setWallet (f : Z → Z) (expiry : option Z → option Z) (pro : bool → bool)
    (u : User.t) : User.t :=
  User.mk (User.uid u) (User.name u) (User.email u) (User.bio u) (User.role u)
    (User.joinedAt u) (User.wishlist u) (User.savedFilters u)
    (f (User.walletBalance u)) (User.avatar u) (User.reputation u)
    (pro (User.isPro u)) (expiry (User.proExpiry u))
    (User.notificationSettings u) (User.proMetrics u).

(** [{ walletBalance: increment(n) }] *)
Definition incrementWalletBalance (n : Z) : User.t → User.t :=
  setWallet (λ b, b + n) (λ e, e) (λ p, p).

(** [{ walletBalance: increment(n), isPro: true, proExpiry: e }] *)
Definition activatePro (n e : Z) : User.t → User.t :=
  setWallet (λ b, b + n) (λ _, Some e) (λ _, true).

(** [{ wishlist }] *)
Definition setWishlist (l : list string) (u : User.t) : User.t :=
  User.mk (User.uid u) (User.name u) (User.email u) (User.bio u) (User.role u)
    (User.joinedAt u) l (User.savedFilters u)
    (User.walletBalance u) (User.avatar u) (User.reputation u)
    (User.isPro u) (User.proExpiry u)
    (User.notificationSettings u) (User.proMetrics u).

(** [{ savedFilters }] *)
Definition setSavedFilters (l : list SavedFilter.t) (u : User.t) : User.t :=
  User.mk (User.uid u) (User.name u) (User.email u) (User.bio u) (User.role u)
    (User.joinedAt u) (User.wishlist u) l
    (User.walletBalance u) (User.avatar u) (User.reputation u)
    (User.isPro u) (User.proExpiry u)
    (User.notificationSettings u) (User.proMetrics u).

(** [{ notificationSettings: settings }] *)
Definition setNotificationSettings (s : NotificationSettings.t) (u : User.t) : User.t :=
  User.mk (User.uid u) (User.name u) (User.email u) (User.bio u) (User.role u)
    (User.joinedAt u) (User.wishlist u) (User.savedFilters u)
    (User.walletBalance u) (User.avatar u) (User.reputation u)
    (User.isPro u) (User.proExpiry u) s (User.proMetrics u).

Definition setCounters (views sales : Z → Z) (p : Product.t) : Product.t :=
  Product.mk (Product.title p) (Product.description p) (Product.price p)
    (Product.previewImage p) (Product.images p) (Product.mediafireLink p)
    (Product.approved p) (Product.rejected p) (Product.sellerId p)
    (Product.sellerName p) (Product.category p) (Product.tags p)
    (Product.createdAt p) (Product.rating p) (Product.reviewCount p)
    (sales (Product.salesCount p)) (views (Product.viewCount p))
    (Product.downloadCount p) (Product.lastUpdate p) (Product.reviews p)
    (Product.isPriority p).

(** [{ viewCount: increment(n) }] *)
Definition incrementViewCount (n : Z) : Product.t → Product.t :=
  setCounters (λ v, v + n) (λ s, s).

(** [{ salesCount: increment(n) }] *)
Definition incrementSalesCount (n : Z) : Product.t → Product.t :=
  setCounters (λ v, v) (λ s, s + n).

Definition setModeration (a : bool) (r : option bool → option bool)
    (p : Product.t) : Product.t :=
  Product.mk (Product.title p) (Product.description p) (Product.price p)
    (Product.previewImage p) (Product.images p) (Product.mediafireLink p)
    a (r (Product.rejected p)) (Product.sellerId p)
    (Product.sellerName p) (Product.category p) (Product.tags p)
    (Product.createdAt p) (Product.rating p) (Product.reviewCount p)
    (Product.salesCount p) (Product.viewCount p)
    (Product.downloadCount p) (Product.lastUpdate p) (Product.reviews p)
    (Product.isPriority p).

(** [{ approved: true }] *)
Definition markApproved : Product.t → Product.t := setModeration true (λ r, r).

(** [{ approved: false, rejected: true }] *)
Definition markRejected : Product.t → Product.t := setModeration false (λ _, Some true).

(** ** The backend: Firestore collections, Firebase Auth, clock

    [autoId], [authUid] and [dateNow] are the environment's choices: the
    [n]-th document id generated by [addDoc], the uid Firebase Auth gives
    its [n]-th account, and the value of the [n]-th call of [Date.now()]. *)

(** An account of Firebase Auth; [password] is absent for an account that
    signs in through a provider ([signInWithPopup] in [src/App.tsx]). *)
Module AuthAccount.
Record t := mk { uid : string; email : string; password : option string }.
End AuthAccount.

Record World := mkWorld {
  users : gmap string User.t;
  products : gmap string Product.t;
  transactions : list (WithId Transaction.t);
  requests : list (WithId Request.t);
  authAccounts : list AuthAccount.t;
  nextId : nat;
  ticks : nat;
  autoId : nat → string;
  authUid : nat → string;
  dateNow : nat → Z
}.

Definition withUsers (us : gmap string User.t) (w : World) : World :=
  mkWorld us (products w) (transactions w) (requests w) (authAccounts w)
    (nextId w) (ticks w) (autoId w) (authUid w) (dateNow w).

Definition withProducts (ps : gmap string Product.t) (n : nat) (w : World) : World :=
  mkWorld (users w) ps (transactions w) (requests w) (authAccounts w)
    n (ticks w) (autoId w) (authUid w) (dateNow w).

Definition withTransactions (ts : list (WithId Transaction.t)) (n : nat) (w : World) : World :=
  mkWorld (users w) (products w) ts (requests w) (authAccounts w)
    n (ticks w) (autoId w) (authUid w) (dateNow w).

Definition withRequests (rs : list (WithId Request.t)) (n : nat) (w : World) : World :=
  mkWorld (users w) (products w) (transactions w) rs (authAccounts w)
    n (ticks w) (autoId w) (authUid w) (dateNow w).

Definition withAuthAccounts (l : list AuthAccount.t) (w : World) : World :=
  mkWorld (users w) (products w) (transactions w) (requests w) l
    (nextId w) (ticks w) (autoId w) (authUid w) (dateNow w).

Definition withTicks (n : nat) (w : World) : World :=
  mkWorld (users w) (products w) (transactions w) (requests w) (authAccounts w)
    (nextId w) n (autoId w) (authUid w) (dateNow w).

(** A thrown [new Error(message)], or a promise rejected by Firebase with
    an error [code]. *)
Inductive Error :=
| JsError (message : string)
| FirebaseError (code : string).

(** The backend calls the [api] awaits. *)
Inductive Eff : Type → Type :=
| GetUser (id : string) : Eff (option User.t)
| SetUser (id : string) (u : User.t) : Eff unit
| UpdateUser (id : string) (f : User.t → User.t) : Eff unit
| GetProduct (id : string) : Eff (option Product.t)
| UpdateProduct (id : string) (f : Product.t → Product.t) : Eff unit
| AddProduct (p : Product.t) : Eff string
| AddTransaction (t : Transaction.t) : Eff string
| AddRequest (r : Request.t) : Eff string
| RequestsOfUser (userId : string) : Eff (list (WithId Request.t))
| DateNow : Eff Z
| CreateUserWithEmailAndPassword (email password : string) : Eff string
| SignInWithEmailAndPassword (email password : string) : Eff string.

(** [getDoc] answers with the stored document or its absence, [setDoc]
    creates or overwrites, [updateDoc] rejects with [not-found] on a missing
    document, [addDoc] stores under a generated id. *)
Definition perform {X : Type} (e : Eff X) (w : World) : World * (Error + X) :=
  match e in Eff X return World * (Error + X) with
  | GetUser id => (w, inr (users w !! id))
  | SetUser id u => (withUsers (<[id := u]> (users w)) w, inr ())
  | UpdateUser id f =>
      match users w !! id with
      | Some u => (withUsers (<[id := f u]> (users w)) w, inr ())
      | None => (w, inl (FirebaseError "not-found"))
      end
  | GetProduct id => (w, inr (products w !! id))
  | UpdateProduct id f =>
      match products w !! id with
      | Some p => (withProducts (<[id := f p]> (products w)) (nextId w) w, inr ())
      | None => (w, inl (FirebaseError "not-found"))
      end
  | AddProduct p =>
      let id := autoId w (nextId w) in
      (withProducts (<[id := p]> (products w)) (S (nextId w)) w, inr id)
  | AddTransaction t =>
      let id := autoId w (nextId w) in
      (withTransactions (transactions w ++ [withId id t]) (S (nextId w)) w, inr id)
  | AddRequest r =>
      let id := autoId w (nextId w) in
      (withRequests (requests w ++ [withId id r]) (S (nextId w)) w, inr id)
  | RequestsOfUser userId =>
      (w, inr (filter (λ r, Request.userId (docData r) = userId) (requests w)))
  | DateNow => (withTicks (S (ticks w)) w, inr (dateNow w (ticks w)))
  | CreateUserWithEmailAndPassword email password =>
      if bool_decide (email ∈ AuthAccount.email <$> authAccounts w)
      then (w, inl (FirebaseError "auth/email-already-in-use"))
      else
        let uid := authUid w (length (authAccounts w)) in
        (withAuthAccounts (authAccounts w ++ [AuthAccount.mk uid email (Some password)]) w,
         inr uid)
  | SignInWithEmailAndPassword email password =>
      match filter (λ a, AuthAccount.email a = email ∧ AuthAccount.password a = Some password)
                   (authAccounts w) with
      | a :: _ => (w, inr (AuthAccount.uid a))
      | [] => (w, inl (FirebaseError "auth/invalid-credential"))
      end
  end.

(** ** Asynchronous computations *)

Inductive Async (A : Type) : Type :=
| Return (a : A)
| Throw (e : Error)
| Await {X : Type} (e : Eff X) (k : X → Async A).
Arguments Return {A} _.
Arguments Throw {A} _.
Arguments Await {A X} _ _.

Fixpoint bind {A B : Type} (k : A → Async B) (p : Async A) : Async B :=
  match p with
  | Return a => k a
  | Throw e => Throw e
  | Await e k' => Await e (λ x, bind k (k' x))
  end.

#[global] Instance Async_ret : MRet Async := @Return.
#[global] Instance Async_bind : MBind Async := @bind.

Definition await {X : Type} (e : Eff X) : Async X := Await e Return.

(** The outcome of a call: the promise is fulfilled with a value or
    rejected with an error. *)
Inductive Outcome (A : Type) :=
| Fulfilled (a : A)
| Rejected (e : Error).
Arguments Fulfilled {A} _.
Arguments Rejected {A} _.

(** Run a call to completion. *)
Fixpoint exec {A : Type} (p : Async A) (w : World) : World * Outcome A :=
  match p with
  | Return a => (w, Fulfilled a)
  | Throw e => (w, Rejected e)
  | Await e k =>
      match perform e w with
      | (w', inr x) => exec (k x) w'
      | (w', inl err) => (w', Rejected err)
      end
  end.


(** ** The [api] object ([src/services/mockApi.ts]) *)

Definition throw {A : Type} (e : Error) : Async A := Throw e.

(** [s || d] on an optional string: [undefined] and [''] are falsy. *)
Definition orString (s : option string) (d : string) : string :=
  match s with
  | Some s' => if bool_decide (s' = "") then d else s'
  | None => d
  end.

(** [n || 0] on an optional number. *)
Definition orZero (n : option Z) : Z :=
  match n with
  | Some n' => if bool_decide (n' = 0) then 0 else n'
  | None => 0
  end.

(** [!password] *)
Definition missing (password : option string) : bool :=
  bool_decide (orString password "" = "").

Definition defaultSettings : NotificationSettings.t :=
  NotificationSettings.mk true true true.

Definition getSellerData (uid : string) : Async (option User.t) :=
  userDoc ← await (GetUser uid);
  mret userDoc.

Definition login (email : string) (password : option string) : Async (option User.t) :=
  if missing password then mret None
  else
    uid ← await (SignInWithEmailAndPassword email (orString password ""));
    getSellerData uid.

Definition register (name email : string) (password : option string)
    : Async (option User.t) :=
  if missing password then mret None
  else
    uid ← await (CreateUserWithEmailAndPassword email (orString password ""));
    joined ← await DateNow;
    let newUser :=
      User.mk uid name email (Some "initialized agent identity.") USER joined
        [] [] 0 None 50 false None defaultSettings None in
    _ ← await (SetUser uid newUser);
    mret (Some newUser).

(** The fields [syncExternalUser] reads from its [firebaseUser] argument. *)
Module FirebaseUser.
Record t := mk {
  uid : string;
  displayName : option string;
  email : string;
  photoURL : option string
}.
End FirebaseUser.

Definition syncExternalUser (firebaseUser : FirebaseUser.t) : Async User.t :=
  userDoc ← await (GetUser (FirebaseUser.uid firebaseUser));
  match userDoc with
  | Some u => mret u
  | None =>
      joined ← await DateNow;
      let newUser :=
        User.mk (FirebaseUser.uid firebaseUser)
          (orString (FirebaseUser.displayName firebaseUser) "Cyber Agent")
          (FirebaseUser.email firebaseUser)
          (Some "Technical recruit in the Codastra network.") USER joined
          [] [] 0 (FirebaseUser.photoURL firebaseUser) 50 false None
          defaultSettings None in
      _ ← await (SetUser (FirebaseUser.uid firebaseUser) newUser);
      mret newUser
  end.

Definition updateNotificationSettings (userId : string)
    (settings : NotificationSettings.t) : Async (option User.t) :=
  _ ← await (UpdateUser userId (setNotificationSettings settings));
  getSellerData userId.

Definition upgradeToPro (userId : string) : Async (option User.t) :=
  user ← getSellerData userId;
  match user with
  | None => mret None
  | Some user =>
      if bool_decide (User.walletBalance user < 999)
      then throw (JsError "Insufficient balance for Pro upgrade. Need â‚¹999.")
      else
        expiryBase ← await DateNow;
        _ ← await (UpdateUser userId (activatePro (-999) (expiryBase + 365 * 86400000)));
        created ← await DateNow;
        _ ← await (AddTransaction
                     (Transaction.mk userId (-999) subscription
                        "Elite Pro Subscription (1 Year)" created));
        getSellerData userId
  end.

Definition getProductById (id : string) : Async (option (WithId Product.t)) :=
  pDoc ← await (GetProduct id);
  match pDoc with
  | Some data =>
      _ ← await (UpdateProduct id (incrementViewCount 1));
      mret (Some (withId id data))
  | None => mret None
  end.

(** [productData] is the form's payload; the fields [submitProduct] lists
    after the spread replace whatever it carries. *)
Definition submitProduct (userId userName : string) (productData : Product.t)
    : Async (WithId Product.t) :=
  user ← getSellerData userId;
  created ← await DateNow;
  updated ← await DateNow;
  let newProduct :=
    Product.mk (Product.title productData) (Product.description productData)
      (Product.price productData) (Product.previewImage productData)
      (Product.images productData) (Product.mediafireLink productData)
      false (Product.rejected productData) userId userName
      (Product.category productData) (Product.tags productData)
      created 0 0 0 0 0 updated []
      (Some (match user with Some u => User.isPro u | None => false end)) in
  id ← await (AddProduct newProduct);
  mret (withId id newProduct).

Definition addFunds (userId : string) (amount : Z) : Async Z :=
  _ ← await (UpdateUser userId (incrementWalletBalance amount));
  created ← await DateNow;
  _ ← await (AddTransaction
               (Transaction.mk userId amount deposit
                  "Wallet Deposit via Secure Gateway" created));
  updated ← getSellerData userId;
  mret (orZero (User.walletBalance <$> updated)).

Definition createRequest (userId productId : string) (paymentProof : option string)
    (isWalletPurchase : bool) : Async (WithId Request.t) :=
  user ← getSellerData userId;
  product ← getProductById productId;
  match user, product with
  | Some user, Some product =>
      let price := Product.price (docData product) in
      _ ← (if isWalletPurchase then
             if bool_decide (User.walletBalance user < price)
             then throw (JsError "Insufficient balance")
             else
               _ ← await (UpdateUser userId (incrementWalletBalance (- price)));
               _ ← await (UpdateProduct productId (incrementSalesCount 1));
               created ← await DateNow;
               _ ← await (AddTransaction
                            (Transaction.mk userId (- price) purchase
                               ("Purchased " +:+ Product.title (docData product))
                               created));
               mret ()
           else mret ()) : Async ();
      created ← await DateNow;
      approvedAt ← (if isWalletPurchase
                    then (approved ← await DateNow; mret (Some approved))
                    else mret None) : Async (option Z);
      let newRequest :=
        Request.mk userId productId (orString paymentProof "")
          (if isWalletPurchase then APPROVED else PENDING)
          created approvedAt isWalletPurchase in
      id ← await (AddRequest newRequest);
      mret (withId id newRequest)
  | _, _ => throw (JsError "Entity missing")
  end.

(** A purchased product as [getUserPurchases] returns it. *)
Record PurchasedProduct := purchased {
  purchasedProduct : WithId Product.t;
  purchaseStatus : RequestStatus
}.

(** The callbacks of [Promise.all] are run one after the other, in the order
    of the query's result; every [increment] is applied by the store on its
    own, so the store they leave does not depend on how they interleave. *)
Fixpoint forEachRequest (docs : list (WithId Request.t))
    : Async (list (option PurchasedProduct)) :=
  match docs with
  | [] => mret []
  | d :: rest =>
      product ← getProductById (Request.productId (docData d));
      let result :=
        match product with
        | None => None
        | Some p => Some (purchased p (Request.status (docData d)))
        end in
      results ← forEachRequest rest;
      mret (result :: results)
  end.

Definition getUserPurchases (userId : string) : Async (list PurchasedProduct) :=
  docs ← await (RequestsOfUser userId);
  results ← forEachRequest docs;
  mret (omap (M:=list) (λ r : option PurchasedProduct, r) results).

Definition approveProduct (productId : string) : Async bool :=
  _ ← await (UpdateProduct productId markApproved);
  mret true.

Definition rejectProduct (productId : string) : Async bool :=
  _ ← await (UpdateProduct productId markRejected);
  mret true.

(** The wishlist [toggleWishlist] computes from the stored one:
    [includes], then [filter] or [push]. *)
Definition toggled (productId : string) (wishlist : list string) : list string :=
  if bool_decide (productId ∈ wishlist)
  then filter (λ id, id ≠ productId) wishlist
  else wishlist ++ [productId].

Definition toggleWishlist (userId productId : string) : Async (list string) :=
  user ← getSellerData userId;
  match user with
  | None => mret []
  | Some user =>
      let wishlist := toggled productId (User.wishlist user) in
      _ ← await (UpdateUser userId (setWishlist wishlist));
      mret wishlist
  end.

(** [filter] is the [Omit<SavedFilter, 'id'>] argument: its [id] is
    replaced by [`filt${Date.now()}`]. *)
Definition saveUserFilter (userId : string) (filter : SavedFilter.t)
    : Async (list SavedFilter.t) :=
  user ← getSellerData userId;
  match user with
  | None => mret []
  | Some user =>
      stamp ← await DateNow;
      let newFilters :=
        User.savedFilters user ++
        [SavedFilter.mk ("filt" +:+ pretty stamp) (SavedFilter.label filter)
           (SavedFilter.searchTerm filter) (SavedFilter.category filter)] in
      _ ← await (UpdateUser userId (setSavedFilters newFilters));
      mret newFilters
  end.

Definition deleteUserFilter (userId filterId : string) : Async (list SavedFilter.t) :=
  user ← getSellerData userId;
  match user with
  | None => mret []
  | Some user =>
      let filtered :=
        filter (λ f, SavedFilter.id f ≠ filterId) (User.savedFilters user) in
      _ ← await (UpdateUser userId (setSavedFilters filtered));
      mret filtered
  end.

(** ** Moderation state

    A product document carries two flags; [submitProduct] stores
    [approved: false], and the public catalogue lists the documents with
    [approved == true]. *)

Inductive ModerationState := ModPending | ModApproved | ModRejected.

Definition moderationState (p : Product.t) : ModerationState :=
  if Product.approved p then ModApproved
  else if bool_decide (Product.rejected p = Some true) then ModRejected
  else ModPending.


(** ** The ledger: balances against the transaction log *)

Definition transactionsOf (userId : string) (w : World) : list Transaction.t :=
  filter (λ t, Transaction.userId t = userId) (docData <$> transactions w).

Definition signedSum (ts : list Transaction.t) : Z :=
  foldr (λ t acc, Transaction.amount t + acc) 0 ts.

(** An account that has no document yet has balance zero. *)
Definition balanceOf (w : World) (userId : string) : Z :=
  from_option User.walletBalance 0 (users w !! userId).

Definition ledgerConsistent (w : World) : Prop :=
  ∀ userId, signedSum (transactionsOf userId w) = balanceOf w userId.

(** ** Sequential runs of the [api]

    The calls that write to the store, each run to completion before the
    next one starts.  [providerSignIn] is [signInWithPopup] of
    [src/App.tsx]: Firebase Auth signs in the account of that e-mail, or
    creates it with a new uid. *)

Inductive Call :=
| CallRegister (name email : string) (password : option string)
| CallSyncExternalUser (firebaseUser : FirebaseUser.t)
| CallUpdateNotificationSettings (userId : string) (settings : NotificationSettings.t)
| CallUpgradeToPro (userId : string)
| CallGetProductById (id : string)
| CallSubmitProduct (userId userName : string) (productData : Product.t)
| CallAddFunds (userId : string) (amount : Z)
| CallCreateRequest (userId productId : string) (paymentProof : option string)
    (isWalletPurchase : bool)
| CallGetUserPurchases (userId : string)
| CallApproveProduct (productId : string)
| CallRejectProduct (productId : string)
| CallToggleWishlist (userId productId : string)
| CallSaveUserFilter (userId : string) (filter : SavedFilter.t)
| CallDeleteUserFilter (userId filterId : string).

Definition discard {A : Type} (p : Async A) : Async () := p ≫= λ _, mret ().

Definition program (c : Call) : Async () :=
  match c with
  | CallRegister name email password => discard (register name email password)
  | CallSyncExternalUser firebaseUser => discard (syncExternalUser firebaseUser)
  | CallUpdateNotificationSettings userId settings =>
      discard (updateNotificationSettings userId settings)
  | CallUpgradeToPro userId => discard (upgradeToPro userId)
  | CallGetProductById id => discard (getProductById id)
  | CallSubmitProduct userId userName productData =>
      discard (submitProduct userId userName productData)
  | CallAddFunds userId amount => discard (addFunds userId amount)
  | CallCreateRequest userId productId paymentProof isWalletPurchase =>
      discard (createRequest userId productId paymentProof isWalletPurchase)
  | CallGetUserPurchases userId => discard (getUserPurchases userId)
  | CallApproveProduct productId => discard (approveProduct productId)
  | CallRejectProduct productId => discard (rejectProduct productId)
  | CallToggleWishlist userId productId => discard (toggleWishlist userId productId)
  | CallSaveUserFilter userId filter => discard (saveUserFilter userId filter)
  | CallDeleteUserFilter userId filterId => discard (deleteUserFilter userId filterId)
  end.

Definition step (c : Call) (w : World) : World := (exec (program c) w).1.

Definition providerSignIn (email : string) (w : World) : World :=
  if bool_decide (email ∈ AuthAccount.email <$> authAccounts w) then w
  else withAuthAccounts
         (authAccounts w ++
          [AuthAccount.mk (authUid w (length (authAccounts w))) email None]) w.

Definition signedIn (uid : string) (w : World) : Prop :=
  uid ∈ AuthAccount.uid <$> authAccounts w.

(** [syncExternalUser] is called with the user Firebase Auth has signed in
    ([onAuthStateChanged], [signInWithPopup]). *)
Definition callable (c : Call) (w : World) : Prop :=
  match c with
  | CallSyncExternalUser firebaseUser => signedIn (FirebaseUser.uid firebaseUser) w
  | _ => True
  end.

Definition emptyWorld (autoId authUid : nat → string) (dateNow : nat → Z) : World :=
  mkWorld ∅ ∅ [] [] [] 0 0 autoId authUid dateNow.

Inductive reachable : World → Prop :=
| reachable_empty autoId authUid dateNow :
    Inj (=) (=) authUid → reachable (emptyWorld autoId authUid dateNow)
| reachable_call c w :
    reachable w → callable c w → reachable (step c w)
| reachable_signIn email w :
    reachable w → reachable (providerSignIn email w).

(** What two stores share when a call has not written to the accounts,
    the transaction log or Firebase Auth. *)
Definition sameLedger (w w' : World) : Prop :=
  users w' = users w ∧ transactions w' = transactions w ∧
  authAccounts w' = authAccounts w ∧ authUid w' = authUid w.

(** Backend calls that leave the accounts, the transaction log and
    Firebase Auth alone, and the computations made of them. *)
Definition ledgerSilent {X : Type} (e : Eff X) : Prop :=
  match e with
  | SetUser _ _ | UpdateUser _ _ | AddTransaction _
  | CreateUserWithEmailAndPassword _ _ => False
  | _ => True
  end.

Fixpoint silent {A : Type} (p : Async A) : Prop :=
  match p with
  | Await e k => ledgerSilent e ∧ ∀ x, silent (k x)
  | _ => True
  end.

(** Firebase Auth gives every account its own uid, and only signed-in
    users have an account document. *)
Definition authConsistent (w : World) : Prop :=
  Inj (=) (=) (authUid w) ∧
  (∀ k a, authAccounts w !! k = Some a → AuthAccount.uid a = authUid w k) ∧
  (∀ uid, is_Some (users w !! uid) → signedIn uid w).

(** The ledger effect of one call that took the store from [w] to [w']:
    either no balance moved and nothing was logged, or exactly one record
    was appended, for an existing account, and that account's balance moved
    by the record's amount while the others stayed. *)
Definition ledgerEffect (w w' : World) : Prop :=
  (transactions w' = transactions w ∧
   ∀ userId, balanceOf w' userId = balanceOf w userId) ∨
  (∃ t, transactions w' = transactions w ++ [t] ∧
        is_Some (users w !! Transaction.userId (docData t)) ∧
        ∀ userId,
          balanceOf w' userId =
          balanceOf w userId +
          (if bool_decide (Transaction.userId (docData t) = userId)
           then Transaction.amount (docData t) else 0)).

Definition runCalls (cs : list Call) (w : World) : World :=
  foldl (λ w c, step c w) w cs.

(** ** A small shop

    One account (uid ["0"]), one product priced 999 (document ["doc0"]),
    built by calls of the [api] from the empty store. *)

Definition shopEnv : World :=
  emptyWorld (λ n, "doc" +:+ pretty n) pretty (λ n, 1700000000000 + Z.of_nat n).

Definition shopForm : Product.t :=
  Product.mk "Shader pack" "Forty shaders." 999 "" [] "" false None "" ""
    "Assets" [] 0 0 0 0 0 0 0 [] None.

(** The product is submitted and still awaits moderation; balance 500. *)
Definition shopPending : World :=
  runCalls [CallRegister "Alice" "alice@example.org" (Some "secret");
            CallSubmitProduct "0" "Alice" shopForm;
            CallAddFunds "0" 500] shopEnv.

(** The product is approved; balance 500. *)
Definition shop : World := step (CallApproveProduct "doc0") shopPending.

(** The product still awaits moderation; balance 1000. *)
Definition shopPending1000 : World := step (CallAddFunds "0" 500) shopPending.

(** Balance 1000. *)
Definition shop1000 : World := step (CallAddFunds "0" 500) shop.


Definition alice (balance : Z) (wishlist : list string) : User.t :=
  User.mk "0" "Alice" "alice@example.org" (Some "initialized agent identity.")
    USER 1700000000000 wishlist [] balance None 50 false None defaultSettings None.

Definition shaderPack (approved : bool) (sales views : Z) : Product.t :=
  Product.mk "Shader pack" "Forty shaders." 999 "" [] "" approved None "0" "Alice"
    "Assets" [] 1700000000001 0 0 sales views 0 1700000000002 [] (Some false).

(** The account has two products on its wishlist. *)
Definition shopWishing : World :=
  runCalls [CallToggleWishlist "0" "doc0"; CallToggleWishlist "0" "doc7"] shop.

(** The account has saved one filter. *)
Definition shopFiltered : World :=
  step (CallSaveUserFilter "0" (SavedFilter.mk "" "Cheap" "shader" "Assets")) shop.

Definition cheapFilter : SavedFilter.t :=
  SavedFilter.mk "filt1700000000004" "Cheap" "shader" "Assets".

(** * The queries of the [api]

    Each of these functions awaits one [getDocs] and computes its answer
    from the snapshot: the answer is a function of the store at the moment
    of the read, and nothing is written. *)

(** [array.sort(compare)] is a stable sort; [le a b] stands for
    [compare(a, b) <= 0]. *)
Fixpoint insertSorted {A : Type} (le : A → A → bool) (x : A) (l : list A) : list A :=
  match l with
  | [] => [x]
  | y :: l' => if le x y then x :: y :: l' else y :: insertSorted le x l'
  end.

Definition sort {A : Type} (le : A → A → bool) (l : list A) : list A :=
  foldr (insertSorted le) [] l.

(** The documents of a collection as a query without [orderBy] returns
    them: by ascending document id. *)
Definition docsOf {A : Type} (m : gmap string A) : list (WithId A) :=
  sort (λ a b, String.leb (docId a) (docId b))
    ((λ kv, withId kv.1 kv.2) <$> map_to_list m).

(** [orderBy('createdAt', 'desc')]: newest first, documents of the same
    instant by descending id. *)
Definition newestFirst {A : Type} (createdAt : A → Z) (a b : WithId A) : bool :=
  bool_decide (createdAt (docData b) < createdAt (docData a)) ||
  (bool_decide (createdAt (docData a) = createdAt (docData b)) &&
   String.leb (docId b) (docId a)).

(** [s.includes(term)] *)
Fixpoint includes (s term : string) : bool :=
  String.prefix term s ||
  match s with
  | EmptyString => false
  | String _ s' => includes s' term
  end.

Module Filters.
Record t := mk {
  searchTerm : option string;
  category : option string;
  sortBy : option string
}.
End Filters.

(** The comparators of [getPublicProducts]: [a.price - b.price] for
    ['PriceLow'], [b.price - a.price] for ['PriceHigh'],
    [b.createdAt - a.createdAt] for ['Newest'], [b.salesCount - a.salesCount]
    otherwise. *)
Definition productOrder (sortBy : option string) (a b : WithId Product.t) : bool :=
  if bool_decide (sortBy = Some "PriceLow")
  then bool_decide (Product.price (docData a) - Product.price (docData b) ≤ 0)
  else if bool_decide (sortBy = Some "PriceHigh")
  then bool_decide (Product.price (docData b) - Product.price (docData a) ≤ 0)
  else if bool_decide (sortBy = Some "Newest")
  then bool_decide (Product.createdAt (docData b) - Product.createdAt (docData a) ≤ 0)
  else bool_decide (Product.salesCount (docData b) - Product.salesCount (docData a) ≤ 0).

Section PublicProducts.

(** [String.prototype.toLowerCase] is left to the caller of the model. *)
Variable toLowerCase : string → string.

Definition matchesTerm (term : string) (p : WithId Product.t) : Prop :=
  includes (toLowerCase (Product.title (docData p))) term = true ∨
  includes (toLowerCase (Product.category (docData p))) term = true.

Definition getPublicProducts (filters : Filters.t) (w : World) : list (WithId Product.t) :=
  let approved :=
    filter (λ p, Product.approved (docData p) = true) (docsOf (products w)) in
  let searched :=
    if missing (Filters.searchTerm filters) then approved
    else
      let term := toLowerCase (orString (Filters.searchTerm filters) "") in
      filter (matchesTerm term) approved in
  let chosen :=
    if missing (Filters.category filters) ||
       bool_decide (Filters.category filters = Some "All")
    then searched
    else filter (λ p, Some (Product.category (docData p)) = Filters.category filters)
           searched in
  sort (productOrder (Filters.sortBy filters)) chosen.

End PublicProducts.

Definition getUserSubmissions (userId : string) (w : World) : list (WithId Product.t) :=
  filter (λ p, Product.sellerId (docData p) = userId) (docsOf (products w)).

Definition getAllProductsAdmin (w : World) : list (WithId Product.t) :=
  docsOf (products w).

Definition getTransactions (userId : string) (w : World) : list (WithId Transaction.t) :=
  sort (newestFirst Transaction.createdAt)
    (filter (λ t, Transaction.userId (docData t) = userId) (transactions w)).

Module Notification.
Record t := mk {
  to : string;
  message : string;
  read : bool;
  createdAt : Z
}.
End Notification.

(** The [notifications] collection is written by no function of the [api];
    it is an argument here.  [limit(20)] keeps the first twenty. *)
Definition getNotifications (userId : string)
    (notifications : list (WithId Notification.t)) : list (WithId Notification.t) :=
  take 20
    (sort (newestFirst Notification.createdAt)
       (filter (λ n, Notification.to (docData n) = userId) notifications)).

(** * What a call may change of a stored product

    [keepsListing p p']: from [p] to [p'] the listing itself (title,
    description, price, link, seller, category, creation time) and the
    ratings are the same, and no counter has gone down. *)
Definition keepsListing (p p' : Product.t) : Prop :=
  Product.title p' = Product.title p ∧
  Product.description p' = Product.description p ∧
  Product.price p' = Product.price p ∧
  Product.mediafireLink p' = Product.mediafireLink p ∧
  Product.sellerId p' = Product.sellerId p ∧
  Product.sellerName p' = Product.sellerName p ∧
  Product.category p' = Product.category p ∧
  Product.createdAt p' = Product.createdAt p ∧
  Product.rating p' = Product.rating p ∧
  Product.reviewCount p' = Product.reviewCount p ∧
  Product.downloadCount p' = Product.downloadCount p ∧
  Product.viewCount p ≤ Product.viewCount p' ∧
  Product.salesCount p ≤ Product.salesCount p'.

(** The computations that create no product document and update product
    documents only in that way. *)
Definition gentleOn {X : Type} (e : Eff X) : Prop :=
  match e with
  | UpdateProduct _ f => ∀ p, keepsListing p (f p)
  | AddProduct _ => False
  | _ => True
  end.

Fixpoint gentle {A : Type} (p : Async A) : Prop :=
  match p with
  | Await e k => gentleOn e ∧ ∀ x, gentle (k x)
  | _ => True
  end.

(** [nothingLost w w']: the records and requests of [w] are still there in
    [w'], unchanged and in place, and so is a document for every account
    and product of [w]. *)
Definition nothingLost (w w' : World) : Prop :=
  transactions w `prefix_of` transactions w' ∧
  requests w `prefix_of` requests w' ∧
  (∀ uid, is_Some (users w !! uid) → is_Some (users w' !! uid)) ∧
  (∀ id, is_Some (products w !! id) → is_Some (products w' !! id)).

(** * What a call may change of a profile

    [respects okSet okUpdate p]: every [setDoc] of a profile in [p] writes
    a profile [okSet] accepts for its id, and every [updateDoc] applies an
    update [okUpdate] accepts. *)
Definition respectsOn (okSet : string → User.t → Prop) (okUpdate : (User.t → User.t) → Prop)
    {X : Type} (e : Eff X) : Prop :=
  match e with
  | SetUser id u => okSet id u
  | UpdateUser _ f => okUpdate f
  | _ => True
  end.

Fixpoint respects (okSet : string → User.t → Prop) (okUpdate : (User.t → User.t) → Prop)
    {A : Type} (p : Async A) : Prop :=
  match p with
  | Await e k => respectsOn okSet okUpdate e ∧ ∀ x, respects okSet okUpdate (k x)
  | _ => True
  end.

(** A profile as the [api] keeps it: filed under its own uid, an ordinary
    user of reputation 50, Pro exactly when it has an expiry, without Pro
    metrics. *)
Definition plainProfile (uid : string) (u : User.t) : Prop :=
  User.uid u = uid ∧ User.role u = USER ∧ User.reputation u = 50 ∧
  (User.isPro u = true ↔ is_Some (User.proExpiry u)) ∧
  User.proMetrics u = None.

(** From [u] to [u'] the identity of the account is the same, and Pro is
    not lost. *)
Definition sameIdentity (u u' : User.t) : Prop :=
  User.uid u' = User.uid u ∧ User.name u' = User.name u ∧
  User.email u' = User.email u ∧ User.bio u' = User.bio u ∧
  User.role u' = User.role u ∧ User.joinedAt u' = User.joinedAt u ∧
  User.avatar u' = User.avatar u ∧ User.reputation u' = User.reputation u ∧
  (User.isPro u = true → User.isPro u' = true).

(** ** More of the shop *)

(** Balance 2500. *)
Definition shop2500 : World := step (CallAddFunds "0" 2000) shop.

(** The account has upgraded to Pro: balance 1. *)
Definition shopPro : World := step (CallUpgradeToPro "0") shop1000.

Definition alicePro : User.t :=
  activatePro (-999) (1700000000005 + 365 * 86400000) (alice 1000 []).

(** The shop under a clock that stands still. *)
Definition shopStalled : World :=
  mkWorld (users shop) (products shop) (transactions shop) (requests shop)
    (authAccounts shop) (nextId shop) (ticks shop) (autoId shop) (authUid shop)
    (λ _, 1700000000004).

(** * Running a call *)

(** Name the components of the store, so that its updates compute. *)
Ltac open_world w := destruct w as [? ? ? ? ? ? ? ? ? ?]; cbn in *.

Lemma exec_bind {A B : Type} (p : Async A) (k : A → Async B) (w : World) :
  exec (p ≫= k) w =
  match exec p w with
  | (w', Fulfilled a) => exec (k a) w'
  | (w', Rejected e) => (w', Rejected e)
  end.
Proof.
  revert w. induction p as [a|e|X e k' IH]; intros w; try reflexivity.
  change (exec (Await e k' ≫= k) w) with
    (match perform e w with
     | (w', inr x) => exec (k' x ≫= k) w'
     | (w', inl err) => (w', Rejected err)
     end).
  simpl. destruct (perform e w) as [w' [err|x]]; [reflexivity|]. apply IH.
Qed.

Lemma exec_discard {A : Type} (p : Async A) (w : World) :
  (exec (discard p) w).1 = (exec p w).1.
Proof.
  unfold discard. rewrite exec_bind. destruct (exec p w) as [w' [a|e]]; reflexivity.
Qed.

Lemma exec_getProductById_found id w p :
  products w !! id = Some p →
  exec (getProductById id) w =
  (withProducts (<[id := incrementViewCount 1 p]> (products w)) (nextId w) w,
   Fulfilled (Some (withId id p))).
Proof.
  intros H. unfold getProductById. open_world w.
  rewrite H. cbn. rewrite H. reflexivity.
Qed.

Lemma exec_getProductById_missing id w :
  products w !! id = None →
  exec (getProductById id) w = (w, Fulfilled None).
Proof. intros H. unfold getProductById. open_world w. rewrite H. reflexivity. Qed.

(** The worlds [createRequest] ends in, for a wallet purchase by an
    existing account of an existing product. *)
Lemma exec_createRequest_wallet_charged userId productId paymentProof w user product :
  users w !! userId = Some user →
  products w !! productId = Some product →
  ¬ User.walletBalance user < Product.price product →
  let request :=
    withId (autoId w (S (nextId w)))
      (Request.mk userId productId (orString paymentProof "") APPROVED
         (dateNow w (S (ticks w))) (Some (dateNow w (S (S (ticks w))))) true) in
  exec (createRequest userId productId paymentProof true) w =
  (mkWorld
     (<[userId := incrementWalletBalance (- Product.price product) user]> (users w))
     (<[productId := incrementSalesCount 1 (incrementViewCount 1 product)]> (products w))
     (transactions w ++
      [withId (autoId w (nextId w))
         (Transaction.mk userId (- Product.price product) purchase
            ("Purchased " +:+ Product.title product) (dateNow w (ticks w)))])
     (requests w ++ [request])
     (authAccounts w) (S (S (nextId w))) (S (S (S (ticks w))))
     (autoId w) (authUid w) (dateNow w),
   Fulfilled request).
Proof.
  intros Hu Hp Hb. unfold createRequest, getSellerData, getProductById.
  open_world w. rewrite Hu. cbn. rewrite Hp. cbn. rewrite Hp. cbn.
  rewrite bool_decide_eq_false_2 by done. cbn. rewrite Hu. cbn.
  rewrite lookup_insert_eq. cbn. rewrite insert_insert_eq. reflexivity.
Qed.

Lemma exec_createRequest_wallet_refused userId productId paymentProof w user product :
  users w !! userId = Some user →
  products w !! productId = Some product →
  User.walletBalance user < Product.price product →
  exec (createRequest userId productId paymentProof true) w =
  (withProducts (<[productId := incrementViewCount 1 product]> (products w)) (nextId w) w,
   Rejected (JsError "Insufficient balance")).
Proof.
  intros Hu Hp Hb. unfold createRequest, getSellerData, getProductById.
  open_world w. rewrite Hu. cbn. rewrite Hp. cbn. rewrite Hp. cbn.
  rewrite bool_decide_eq_true_2 by done. reflexivity.
Qed.

Lemma exec_createRequest_no_user userId productId paymentProof wallet w product :
  users w !! userId = None →
  products w !! productId = Some product →
  exec (createRequest userId productId paymentProof wallet) w =
  (withProducts (<[productId := incrementViewCount 1 product]> (products w)) (nextId w) w,
   Rejected (JsError "Entity missing")).
Proof.
  intros Hu Hp. unfold createRequest, getSellerData, getProductById.
  open_world w. rewrite Hu. cbn. rewrite Hp. cbn. rewrite Hp. cbn. reflexivity.
Qed.

Lemma exec_createRequest_no_product userId productId paymentProof wallet w :
  products w !! productId = None →
  exec (createRequest userId productId paymentProof wallet) w =
  (w, Rejected (JsError "Entity missing")).
Proof.
  intros Hp. unfold createRequest, getSellerData, getProductById.
  destruct w as [us ? ? ? ? ? ? ? ? ?]; cbn in *. rewrite Hp. cbn.
  destruct (us !! userId); reflexivity.
Qed.

Lemma exec_createRequest_proof userId productId paymentProof w user product :
  users w !! userId = Some user →
  products w !! productId = Some product →
  let request :=
    withId (autoId w (nextId w))
      (Request.mk userId productId (orString paymentProof "") PENDING
         (dateNow w (ticks w)) None false) in
  exec (createRequest userId productId paymentProof false) w =
  (mkWorld (users w)
     (<[productId := incrementViewCount 1 product]> (products w))
     (transactions w) (requests w ++ [request])
     (authAccounts w) (S (nextId w)) (S (ticks w))
     (autoId w) (authUid w) (dateNow w),
   Fulfilled request).
Proof.
  intros Hu Hp. unfold createRequest, getSellerData, getProductById.
  open_world w. rewrite Hu. cbn. rewrite Hp. cbn. rewrite Hp. cbn. reflexivity.
Qed.

Lemma orZero_Some (n : Z) : orZero (Some n) = n.
Proof. unfold orZero. case_bool_decide; congruence. Qed.

#[local] Arguments orZero : simpl never.

Lemma exec_addFunds_found userId amount w user :
  users w !! userId = Some user →
  exec (addFunds userId amount) w =
  (mkWorld
     (<[userId := incrementWalletBalance amount user]> (users w))
     (products w)
     (transactions w ++
      [withId (autoId w (nextId w))
         (Transaction.mk userId amount deposit
            "Wallet Deposit via Secure Gateway" (dateNow w (ticks w)))])
     (requests w) (authAccounts w) (S (nextId w)) (S (ticks w))
     (autoId w) (authUid w) (dateNow w),
   Fulfilled (User.walletBalance user + amount)).
Proof.
  intros Hu. unfold addFunds, getSellerData. open_world w.
  rewrite Hu. cbn. rewrite lookup_insert_eq. cbn. by rewrite orZero_Some.
Qed.

Lemma exec_addFunds_missing userId amount w :
  users w !! userId = None →
  exec (addFunds userId amount) w = (w, Rejected (FirebaseError "not-found")).
Proof. intros Hu. unfold addFunds. open_world w. by rewrite Hu. Qed.

Lemma exec_upgradeToPro_charged userId w user :
  users w !! userId = Some user →
  ¬ User.walletBalance user < 999 →
  let user' := activatePro (-999) (dateNow w (ticks w) + 365 * 86400000) user in
  exec (upgradeToPro userId) w =
  (mkWorld
     (<[userId := user']> (users w))
     (products w)
     (transactions w ++
      [withId (autoId w (nextId w))
         (Transaction.mk userId (-999) subscription
            "Elite Pro Subscription (1 Year)" (dateNow w (S (ticks w))))])
     (requests w) (authAccounts w) (S (nextId w)) (S (S (ticks w)))
     (autoId w) (authUid w) (dateNow w),
   Fulfilled (Some user')).
Proof.
  intros Hu Hb. unfold upgradeToPro, getSellerData. open_world w.
  rewrite Hu. cbn. rewrite bool_decide_eq_false_2 by done. cbn.
  rewrite Hu. cbn. by rewrite lookup_insert_eq.
Qed.

Lemma exec_upgradeToPro_refused userId w user :
  users w !! userId = Some user →
  User.walletBalance user < 999 →
  exec (upgradeToPro userId) w =
  (w, Rejected (JsError "Insufficient balance for Pro upgrade. Need â‚¹999.")).
Proof.
  intros Hu Hb. unfold upgradeToPro, getSellerData. open_world w.
  rewrite Hu. cbn. by rewrite bool_decide_eq_true_2.
Qed.

Lemma exec_upgradeToPro_missing userId w :
  users w !! userId = None →
  exec (upgradeToPro userId) w = (w, Fulfilled None).
Proof.
  intros Hu. unfold upgradeToPro, getSellerData. open_world w. by rewrite Hu.
Qed.


Lemma exec_approveProduct_found productId w product :
  products w !! productId = Some product →
  exec (approveProduct productId) w =
  (withProducts (<[productId := markApproved product]> (products w)) (nextId w) w,
   Fulfilled true).
Proof. intros Hp. unfold approveProduct. open_world w. by rewrite Hp. Qed.

Lemma exec_rejectProduct_found productId w product :
  products w !! productId = Some product →
  exec (rejectProduct productId) w =
  (withProducts (<[productId := markRejected product]> (products w)) (nextId w) w,
   Fulfilled true).
Proof. intros Hp. unfold rejectProduct. open_world w. by rewrite Hp. Qed.

Lemma exec_approveProduct_missing productId w :
  products w !! productId = None →
  exec (approveProduct productId) w = (w, Rejected (FirebaseError "not-found")).
Proof. intros Hp. unfold approveProduct. open_world w. by rewrite Hp. Qed.

Lemma exec_rejectProduct_missing productId w :
  products w !! productId = None →
  exec (rejectProduct productId) w = (w, Rejected (FirebaseError "not-found")).
Proof. intros Hp. unfold rejectProduct. open_world w. by rewrite Hp. Qed.

Lemma exec_toggleWishlist_found userId productId w user :
  users w !! userId = Some user →
  exec (toggleWishlist userId productId) w =
  (withUsers
     (<[userId := setWishlist (toggled productId (User.wishlist user)) user]> (users w)) w,
   Fulfilled (toggled productId (User.wishlist user))).
Proof.
  intros Hu. unfold toggleWishlist, getSellerData. open_world w.
  rewrite Hu. cbn. by rewrite Hu.
Qed.

Lemma exec_toggleWishlist_missing userId productId w :
  users w !! userId = None →
  exec (toggleWishlist userId productId) w = (w, Fulfilled []).
Proof.
  intros Hu. unfold toggleWishlist, getSellerData. open_world w. by rewrite Hu.
Qed.

Lemma exec_deleteUserFilter_found userId filterId w user :
  users w !! userId = Some user →
  let filtered := filter (λ f, SavedFilter.id f ≠ filterId) (User.savedFilters user) in
  exec (deleteUserFilter userId filterId) w =
  (withUsers (<[userId := setSavedFilters filtered user]> (users w)) w,
   Fulfilled filtered).
Proof.
  intros Hu. unfold deleteUserFilter, getSellerData. open_world w.
  rewrite Hu. cbn. by rewrite Hu.
Qed.

(** ** Wallet purchases *)

(** C1. A wallet purchase by an account whose balance is below the price is
    rejected with "Insufficient balance"; it creates no request, appends no
    transaction, and leaves every account (so the balance) and the
    product's [salesCount] as they were. *)
Theorem createRequest_insufficient_funds userId productId paymentProof w user product :
  users w !! userId = Some user →
  products w !! productId = Some product →
  User.walletBalance user < Product.price product →
  ∃ w',
    exec (createRequest userId productId paymentProof true) w =
      (w', Rejected (JsError "Insufficient balance")) ∧
    requests w' = requests w ∧
    transactions w' = transactions w ∧
    users w' = users w ∧
    User.walletBalance <$> users w' !! userId = Some (User.walletBalance user) ∧
    Product.salesCount <$> products w' !! productId = Some (Product.salesCount product).
Proof.
  intros Hu Hp Hb. eexists. split.
  { apply (exec_createRequest_wallet_refused _ _ _ _ _ _ Hu Hp Hb). }
  cbn. rewrite Hu, lookup_insert_eq. done.
Qed.

(** C8. Reading an existing product through [getProductById] adds one to its
    [viewCount]; so does every wallet purchase attempted on it through
    [createRequest], whatever its outcome. *)
Theorem getProductById_counts_a_view userId productId paymentProof w product :
  products w !! productId = Some product →
  products (exec (getProductById productId) w).1 =
    <[productId := incrementViewCount 1 product]> (products w) ∧
  Product.viewCount <$> products (exec (getProductById productId) w).1 !! productId =
    Some (Product.viewCount product + 1) ∧
  Product.viewCount <$>
    products (exec (createRequest userId productId paymentProof true) w).1 !! productId =
    Some (Product.viewCount product + 1).
Proof.
  intros Hp. rewrite (exec_getProductById_found _ _ _ Hp).
  split_and!; [done | by cbn; rewrite lookup_insert_eq |].
  destruct (users w !! userId) as [user|] eqn:Hu.
  - destruct (decide (User.walletBalance user < Product.price product)) as [Hb|Hb].
    + rewrite (exec_createRequest_wallet_refused _ _ _ _ _ _ Hu Hp Hb). cbn.
      by rewrite lookup_insert_eq.
    + rewrite (exec_createRequest_wallet_charged _ _ _ _ _ _ Hu Hp Hb). cbn.
      by rewrite lookup_insert_eq.
  - rewrite (exec_createRequest_no_user _ _ _ _ _ _ Hu Hp). cbn.
    by rewrite lookup_insert_eq.
Qed.


(** C6 (as the code has it). [createRequest] does not read the moderation
    flags of the product: a wallet purchase of a product that is not
    approved is fulfilled whenever the balance covers the price, and then
    charges the account, appends the purchase record, adds a sale and
    stores an Approved request. *)
Theorem createRequest_ignores_moderation userId productId paymentProof w user product :
  users w !! userId = Some user →
  products w !! productId = Some product →
  moderationState product ≠ ModApproved →
  Product.price product ≤ User.walletBalance user →
  ∃ w' request,
    exec (createRequest userId productId paymentProof true) w = (w', Fulfilled request) ∧
    users w' !! userId =
      Some (incrementWalletBalance (- Product.price product) user) ∧
    transactions w' =
      transactions w ++
      [withId (autoId w (nextId w))
         (Transaction.mk userId (- Product.price product) purchase
            ("Purchased " +:+ Product.title product) (dateNow w (ticks w)))] ∧
    products w' !! productId =
      Some (incrementSalesCount 1 (incrementViewCount 1 product)) ∧
    (moderationState <$> products w' !! productId) = Some (moderationState product) ∧
    requests w' = requests w ++ [request] ∧
    Request.status (docData request) = APPROVED.
Proof.
  intros Hu Hp _ Hb. eexists _, _. split.
  { apply (exec_createRequest_wallet_charged _ _ _ _ _ _ Hu Hp). lia. }
  cbn. rewrite !lookup_insert_eq. done.
Qed.

(** ** Deposits *)


(** ** Subscription *)


(** ** Moderation *)

(** C4 (as the code has it). [approveProduct] and [rejectProduct] write the
    moderation flags of an existing product whatever its state: each is
    fulfilled with [true], the first leaves the product approved and the
    second rejected; a rejection that follows an approval is fulfilled and
    leaves the product rejected. *)
Theorem moderation_is_unconditional productId w product :
  products w !! productId = Some product →
  (∃ w', exec (approveProduct productId) w = (w', Fulfilled true) ∧
         products w' !! productId = Some (markApproved product) ∧
         moderationState (markApproved product) = ModApproved) ∧
  (∃ w', exec (rejectProduct productId) w = (w', Fulfilled true) ∧
         products w' !! productId = Some (markRejected product) ∧
         moderationState (markRejected product) = ModRejected) ∧
  (∃ w', exec (rejectProduct productId) (exec (approveProduct productId) w).1 =
           (w', Fulfilled true) ∧
         moderationState <$> products w' !! productId = Some ModRejected).
Proof.
  intros Hp. split_and!.
  - eexists. split; [by apply exec_approveProduct_found|].
    cbn. by rewrite lookup_insert_eq.
  - eexists. split; [by apply exec_rejectProduct_found|].
    cbn. by rewrite lookup_insert_eq.
  - rewrite (exec_approveProduct_found _ _ _ Hp). cbn [fst].
    eexists. split.
    + apply exec_rejectProduct_found. cbn. apply lookup_insert_eq.
    + cbn. by rewrite lookup_insert_eq.
Qed.

(** ** Profile *)

Lemma filter_all {A : Type} (P : A → Prop) `{!∀ x, Decision (P x)} (l : list A) :
  Forall P l → filter P l = l.
Proof.
  induction 1 as [|x l Hx _ IH]; [done|].
  by rewrite filter_cons_True, IH.
Qed.

Lemma setSavedFilters_same user : setSavedFilters (User.savedFilters user) user = user.
Proof. by destruct user. Qed.

Section Toggled.
Variables (productId : string) (wishlist : list string).

Lemma toggled_absent :
  productId ∉ wishlist → toggled productId (toggled productId wishlist) = wishlist.
Proof.
  intros Hnot. unfold toggled at 2. rewrite bool_decide_eq_false_2 by done.
  unfold toggled. rewrite bool_decide_eq_true_2.
  - rewrite filter_app, filter_cons_False, filter_nil, app_nil_r
      by (intros H; by apply H).
    apply filter_all, Forall_forall. by intros id Hid ->.
  - apply elem_of_app. right. by apply list_elem_of_singleton.
Qed.

Lemma toggled_present :
  productId ∈ wishlist →
  toggled productId (toggled productId wishlist) =
  filter (λ id, id ≠ productId) wishlist ++ [productId].
Proof.
  intros Hin. unfold toggled at 2. rewrite bool_decide_eq_true_2 by done.
  unfold toggled. rewrite bool_decide_eq_false_2; [done|].
  rewrite list_elem_of_filter. intros [Hne _]. by apply Hne.
Qed.

Lemma elem_of_toggled id :
  id ∈ toggled productId wishlist ↔
  (id = productId ∧ productId ∉ wishlist) ∨ (id ≠ productId ∧ id ∈ wishlist).
Proof.
  unfold toggled. case_bool_decide as Hin.
  - rewrite list_elem_of_filter. intuition congruence.
  - rewrite elem_of_app, list_elem_of_singleton.
    destruct (decide (id = productId)); intuition congruence.
Qed.

End Toggled.

(** C9 (as the code has it). One [toggleWishlist] adds the id when it is
    absent and removes every occurrence of it when it is present, and
    touches no other id.  Two in a row leave a wishlist with the same ids as
    the original one: the original list itself when the id was absent; when
    it was present, the original list with the id taken out and put back at
    the end.  No other field of the account changes. *)
Theorem toggleWishlist_twice userId productId w user :
  users w !! userId = Some user →
  ∃ w1 w2 list1 list2,
    exec (toggleWishlist userId productId) w = (w1, Fulfilled list1) ∧
    exec (toggleWishlist userId productId) w1 = (w2, Fulfilled list2) ∧
    users w1 !! userId = Some (setWishlist list1 user) ∧
    users w2 !! userId = Some (setWishlist list2 user) ∧
    (productId ∈ list1 ↔ productId ∉ User.wishlist user) ∧
    (∀ id, id ≠ productId → id ∈ list1 ↔ id ∈ User.wishlist user) ∧
    (∀ id, id ∈ list2 ↔ id ∈ User.wishlist user) ∧
    (productId ∉ User.wishlist user → list2 = User.wishlist user) ∧
    (productId ∈ User.wishlist user →
     list2 = filter (λ id, id ≠ productId) (User.wishlist user) ++ [productId]).
Proof.
  intros Hu.
  set (list1 := toggled productId (User.wishlist user)).
  set (list2 := toggled productId list1).
  eexists _, _, list1, list2. split; [by apply exec_toggleWishlist_found|].
  split.
  { erewrite exec_toggleWishlist_found; [|cbn; apply lookup_insert_eq]. done. }
  cbn. rewrite insert_insert_eq, !lookup_insert_eq.
  assert (∀ id, id ∈ list2 ↔ id ∈ User.wishlist user) as Hsame.
  { intros id. unfold list2, list1. rewrite !elem_of_toggled.
    destruct (decide (id = productId)), (decide (productId ∈ User.wishlist user));
      intuition congruence. }
  split_and!; try done.
  - unfold list1. rewrite elem_of_toggled. intuition congruence.
  - intros id Hne. unfold list1. rewrite elem_of_toggled. intuition congruence.
  - apply toggled_absent.
  - apply toggled_present.
Qed.

(** C10. On an existing account, [deleteUserFilter] with an id that none of
    the saved filters carries is fulfilled with the stored list, and the
    store is left as it was. *)
Theorem deleteUserFilter_unknown_id userId filterId w user :
  users w !! userId = Some user →
  filterId ∉ (SavedFilter.id <$> User.savedFilters user) →
  exec (deleteUserFilter userId filterId) w = (w, Fulfilled (User.savedFilters user)).
Proof.
  intros Hu Hnot. rewrite (exec_deleteUserFilter_found _ _ _ _ Hu).
  rewrite filter_all.
  - rewrite setSavedFilters_same, insert_id by done. by destruct w.
  - apply Forall_forall. intros f Hf Heq. apply Hnot.
    apply list_elem_of_fmap. eauto.
Qed.

(** * The ledger between calls *)

Lemma silent_bind {A B : Type} (p : Async A) (k : A → Async B) :
  silent p → (∀ a, silent (k a)) → silent (p ≫= k).
Proof.
  intros Hp Hk. induction p as [a|e|X e k' IH]; cbn; [apply Hk|done|].
  destruct Hp as [He Hk']. split; [done|]. intros x. apply IH, Hk'.
Qed.

Lemma sameLedger_trans w1 w2 w3 : sameLedger w1 w2 → sameLedger w2 w3 → sameLedger w1 w3.
Proof. unfold sameLedger. intuition congruence. Qed.

Lemma perform_silent {X : Type} (e : Eff X) w :
  ledgerSilent e → sameLedger w (perform e w).1.
Proof.
  destruct e; cbn; try done; intros _.
  - destruct (products w !! id); done.
  - destruct (filter _ _); done.
Qed.

Lemma exec_silent {A : Type} (p : Async A) w :
  silent p → sameLedger w (exec p w).1.
Proof.
  revert w. induction p as [a|e|X e k IH]; intros w Hp; [done..|].
  destruct Hp as [He Hk]. cbn.
  pose proof (perform_silent e w He) as Hw.
  destruct (perform e w) as [w' [err|x]]; [done|].
  eapply sameLedger_trans; [exact Hw|]. by apply IH.
Qed.

Lemma silent_getProductById id : silent (getProductById id).
Proof. cbn. split; [done|]. intros [p|]; cbn; auto. Qed.

Lemma silent_forEachRequest docs : silent (forEachRequest docs).
Proof.
  induction docs as [|d docs IH]; [done|].
  cbn [forEachRequest]. apply silent_bind; [apply silent_getProductById|].
  intros product. apply silent_bind; [done|]. by intros results.
Qed.

Lemma silent_getUserPurchases userId : silent (getUserPurchases userId).
Proof.
  unfold getUserPurchases. split; [done|]. intros docs.
  change (silent (forEachRequest docs ≫= λ results,
            mret (omap (M:=list) (λ r : option PurchasedProduct, r) results))).
  apply silent_bind; [apply silent_forEachRequest|done].
Qed.

Lemma silent_submitProduct userId userName productData :
  silent (submitProduct userId userName productData).
Proof. cbn. repeat (split; [done|]; intros ?). done. Qed.

Lemma silent_approveProduct productId : silent (approveProduct productId).
Proof. cbn. auto. Qed.

Lemma silent_rejectProduct productId : silent (rejectProduct productId).
Proof. cbn. auto. Qed.

Lemma balanceOf_insert w w' uid u' userId :
  users w' = <[uid := u']> (users w) →
  balanceOf w' userId =
  if bool_decide (uid = userId) then User.walletBalance u' else balanceOf w userId.
Proof.
  intros Hus. unfold balanceOf. rewrite Hus. case_bool_decide as Heq.
  - subst. by rewrite lookup_insert_eq.
  - by rewrite lookup_insert_ne.
Qed.

(** A call that wrote to no account, logged nothing and created no auth
    account. *)
Lemma effect_same w w' :
  sameLedger w w' → authConsistent w → authConsistent w' ∧ ledgerEffect w w'.
Proof.
  intros (Hus & Hts & Has & Hid) (Hinj & Hidx & Hsub). split.
  - unfold authConsistent, signedIn. rewrite Hus, Has, Hid. done.
  - left. split; [done|]. intros userId. unfold balanceOf. by rewrite Hus.
Qed.

(** A call that rewrote one account document and logged [ts]: nothing, with
    the balance kept, or one record of that account carrying the change of
    its balance. *)
Lemma effect_account w w' uid u u' :
  users w !! uid = Some u →
  users w' = <[uid := u']> (users w) →
  authAccounts w' = authAccounts w →
  authUid w' = authUid w →
  (transactions w' = transactions w ∧ User.walletBalance u' = User.walletBalance u) ∨
  (∃ t, transactions w' = transactions w ++ [t] ∧
        Transaction.userId (docData t) = uid ∧
        User.walletBalance u' = User.walletBalance u + Transaction.amount (docData t)) →
  authConsistent w → authConsistent w' ∧ ledgerEffect w w'.
Proof.
  intros Hu Hus Has Hid Hts (Hinj & Hidx & Hsub). split.
  - unfold authConsistent, signedIn. rewrite Hus, Has, Hid.
    split_and!; [done..|]. intros uid' Hsome. apply Hsub.
    destruct (decide (uid = uid')) as [<-|Hne]; [by rewrite Hu|].
    by rewrite lookup_insert_ne in Hsome.
  - assert (balanceOf w uid = User.walletBalance u) as Hb.
    { unfold balanceOf. by rewrite Hu. }
    destruct Hts as [[Hts Hbal]|(t & Hts & Ht & Hbal)].
    + left. split; [done|]. intros userId.
      rewrite (balanceOf_insert w w' uid u' userId Hus).
      case_bool_decide; congruence.
    + right. exists t. split; [done|]. rewrite Ht. split; [by rewrite Hu|].
      intros userId. rewrite (balanceOf_insert w w' uid u' userId Hus).
      case_bool_decide; [subst; lia | lia].
Qed.

(** A call that created the document of a signed-in user, with balance
    zero. *)
Lemma effect_created w w' uid u' :
  users w !! uid = None →
  users w' = <[uid := u']> (users w) →
  User.walletBalance u' = 0 →
  transactions w' = transactions w →
  authUid w' = authUid w →
  (authAccounts w' = authAccounts w ∧ signedIn uid w) ∨
  (∃ email password,
     uid = authUid w (length (authAccounts w)) ∧
     authAccounts w' = authAccounts w ++ [AuthAccount.mk uid email password]) →
  authConsistent w → authConsistent w' ∧ ledgerEffect w w'.
Proof.
  intros Hu Hus Hbal Hts Hid Has (Hinj & Hidx & Hsub). split.
  - unfold authConsistent. rewrite Hid. split; [done|].
    destruct Has as [[Has Hin]|(email & password & Huid & Has)]; rewrite Has.
    + split; [done|]. unfold signedIn. rewrite Hus, Has. intros uid' Hsome.
      destruct (decide (uid = uid')) as [<-|Hne]; [done|].
      rewrite lookup_insert_ne in Hsome by done. by apply Hsub.
    + split.
      * intros k a Hk. apply lookup_app_Some in Hk as [Hk|[Hlen Hk]]; [by apply Hidx|].
        apply list_lookup_singleton_Some in Hk as [Hk <-]. cbn.
        rewrite Huid. f_equal. lia.
      * unfold signedIn. rewrite Hus, Has, fmap_app. intros uid' Hsome.
        apply elem_of_app.
        destruct (decide (uid = uid')) as [<-|Hne].
        { right. cbn. apply list_elem_of_singleton. done. }
        left. rewrite lookup_insert_ne in Hsome by done. by apply Hsub.
  - left. split; [done|]. intros userId.
    rewrite (balanceOf_insert w w' uid u' userId Hus).
    case_bool_decide; [|done]. subst. unfold balanceOf. by rewrite Hu, Hbal.
Qed.

(** The uid Firebase Auth gives next has no account document yet. *)
Lemma next_uid_fresh w :
  authConsistent w → users w !! authUid w (length (authAccounts w)) = None.
Proof.
  intros (Hinj & Hidx & Hsub).
  destruct (users w !! authUid w (length (authAccounts w))) as [u|] eqn:Hu; [|done].
  exfalso. assert (signedIn (authUid w (length (authAccounts w))) w) as Hin.
  { apply Hsub. by rewrite Hu. }
  unfold signedIn in Hin. apply list_elem_of_fmap in Hin as (a & Ha & Hin).
  apply list_elem_of_lookup in Hin as [k Hk].
  pose proof (lookup_lt_Some _ _ _ Hk) as Hlt.
  rewrite (Hidx k a Hk) in Ha. apply Hinj in Ha. lia.
Qed.

Lemma effect_register name email password w :
  authConsistent w →
  authConsistent (exec (register name email password) w).1 ∧
  ledgerEffect w (exec (register name email password) w).1.
Proof.
  intros Hw. pose proof (next_uid_fresh w Hw) as Hfresh.
  unfold register. destruct (missing password).
  { by apply effect_same. }
  destruct w as [us ps ts rs accounts n t ids uids clock]; cbn in *.
  case_bool_decide as Hemail; cbn.
  { by apply effect_same. }
  eapply effect_created; cbn; try done. right. eauto.
Qed.

Lemma effect_syncExternalUser firebaseUser w :
  signedIn (FirebaseUser.uid firebaseUser) w →
  authConsistent w →
  authConsistent (exec (syncExternalUser firebaseUser) w).1 ∧
  ledgerEffect w (exec (syncExternalUser firebaseUser) w).1.
Proof.
  intros Hin Hw. unfold syncExternalUser.
  destruct w as [us ps ts rs accounts n t ids uids clock]; cbn in *.
  destruct (us !! FirebaseUser.uid firebaseUser) as [u|] eqn:Hu; cbn.
  { by apply effect_same. }
  eapply effect_created; cbn; try done. by left.
Qed.

Lemma effect_updateNotificationSettings userId settings w :
  authConsistent w →
  authConsistent (exec (updateNotificationSettings userId settings) w).1 ∧
  ledgerEffect w (exec (updateNotificationSettings userId settings) w).1.
Proof.
  intros Hw. unfold updateNotificationSettings, getSellerData.
  destruct w as [us ps ts rs accounts n t ids uids clock]; cbn in *.
  destruct (us !! userId) as [u|] eqn:Hu; cbn.
  - eapply effect_account; cbn; try done. by left.
  - by apply effect_same.
Qed.

Lemma effect_upgradeToPro userId w :
  authConsistent w →
  authConsistent (exec (upgradeToPro userId) w).1 ∧
  ledgerEffect w (exec (upgradeToPro userId) w).1.
Proof.
  intros Hw. destruct (users w !! userId) as [u|] eqn:Hu.
  - destruct (decide (User.walletBalance u < 999)) as [Hb|Hb].
    + rewrite (exec_upgradeToPro_refused _ _ _ Hu Hb). by apply effect_same.
    + rewrite (exec_upgradeToPro_charged _ _ _ Hu Hb).
      eapply effect_account; cbn; try done. right. eexists. split; [done|]. done.
  - rewrite (exec_upgradeToPro_missing _ _ Hu). by apply effect_same.
Qed.

Lemma effect_addFunds userId amount w :
  authConsistent w →
  authConsistent (exec (addFunds userId amount) w).1 ∧
  ledgerEffect w (exec (addFunds userId amount) w).1.
Proof.
  intros Hw. destruct (users w !! userId) as [u|] eqn:Hu.
  - rewrite (exec_addFunds_found _ _ _ _ Hu).
    eapply effect_account; cbn; try done. right. eexists. split; [done|]. done.
  - rewrite (exec_addFunds_missing _ _ _ Hu). by apply effect_same.
Qed.

Lemma effect_createRequest userId productId paymentProof isWalletPurchase w :
  authConsistent w →
  authConsistent (exec (createRequest userId productId paymentProof isWalletPurchase) w).1 ∧
  ledgerEffect w (exec (createRequest userId productId paymentProof isWalletPurchase) w).1.
Proof.
  intros Hw. destruct (products w !! productId) as [p|] eqn:Hp.
  2:{ rewrite (exec_createRequest_no_product _ _ _ _ _ Hp). by apply effect_same. }
  destruct (users w !! userId) as [u|] eqn:Hu.
  2:{ rewrite (exec_createRequest_no_user _ _ _ _ _ _ Hu Hp). by apply effect_same. }
  destruct isWalletPurchase.
  2:{ rewrite (exec_createRequest_proof _ _ _ _ _ _ Hu Hp). by apply effect_same. }
  destruct (decide (User.walletBalance u < Product.price p)) as [Hb|Hb].
  - rewrite (exec_createRequest_wallet_refused _ _ _ _ _ _ Hu Hp Hb). by apply effect_same.
  - rewrite (exec_createRequest_wallet_charged _ _ _ _ _ _ Hu Hp Hb).
    eapply effect_account; cbn; try done. right. eexists. split; [done|]. done.
Qed.

Lemma effect_toggleWishlist userId productId w :
  authConsistent w →
  authConsistent (exec (toggleWishlist userId productId) w).1 ∧
  ledgerEffect w (exec (toggleWishlist userId productId) w).1.
Proof.
  intros Hw. destruct (users w !! userId) as [u|] eqn:Hu.
  - rewrite (exec_toggleWishlist_found _ _ _ _ Hu).
    eapply effect_account; cbn; try done. by left.
  - rewrite (exec_toggleWishlist_missing _ _ _ Hu). by apply effect_same.
Qed.

Lemma effect_saveUserFilter userId filter w :
  authConsistent w →
  authConsistent (exec (saveUserFilter userId filter) w).1 ∧
  ledgerEffect w (exec (saveUserFilter userId filter) w).1.
Proof.
  intros Hw. unfold saveUserFilter, getSellerData.
  destruct w as [us ps ts rs accounts n t ids uids clock]; cbn in *.
  destruct (us !! userId) as [u|] eqn:Hu; cbn.
  - rewrite Hu. cbn. eapply effect_account; cbn; try done. by left.
  - by apply effect_same.
Qed.

Lemma effect_deleteUserFilter userId filterId w :
  authConsistent w →
  authConsistent (exec (deleteUserFilter userId filterId) w).1 ∧
  ledgerEffect w (exec (deleteUserFilter userId filterId) w).1.
Proof.
  intros Hw. destruct (users w !! userId) as [u|] eqn:Hu.
  - rewrite (exec_deleteUserFilter_found _ _ _ _ Hu).
    eapply effect_account; cbn; try done. by left.
  - unfold deleteUserFilter, getSellerData.
    open_world w. rewrite Hu. by apply effect_same.
Qed.

(** Every call keeps Firebase Auth and the accounts consistent and has the
    ledger effect of at most one record. *)
Lemma effect_step c w :
  authConsistent w → callable c w →
  authConsistent (step c w) ∧ ledgerEffect w (step c w).
Proof.
  intros Hw Hc. unfold step.
  destruct c; cbn [program]; rewrite exec_discard.
  - by apply effect_register.
  - by apply effect_syncExternalUser.
  - by apply effect_updateNotificationSettings.
  - by apply effect_upgradeToPro.
  - apply effect_same; [|done]. apply exec_silent, silent_getProductById.
  - apply effect_same; [|done]. apply exec_silent, silent_submitProduct.
  - by apply effect_addFunds.
  - by apply effect_createRequest.
  - apply effect_same; [|done]. apply exec_silent, silent_getUserPurchases.
  - apply effect_same; [|done]. apply exec_silent, silent_approveProduct.
  - apply effect_same; [|done]. apply exec_silent, silent_rejectProduct.
  - by apply effect_toggleWishlist.
  - by apply effect_saveUserFilter.
  - by apply effect_deleteUserFilter.
Qed.

Lemma authConsistent_providerSignIn email w :
  authConsistent w → authConsistent (providerSignIn email w).
Proof.
  intros Hw. unfold providerSignIn. case_bool_decide; [done|].
  destruct Hw as (Hinj & Hidx & Hsub). split_and!; cbn; [done|..].
  - intros k a Hk. apply lookup_app_Some in Hk as [Hk|[Hlen Hk]]; [by apply Hidx|].
    apply list_lookup_singleton_Some in Hk as [Hk <-]. cbn. f_equal. lia.
  - intros uid Hsome. unfold signedIn. cbn. rewrite fmap_app.
    apply elem_of_app. left. by apply Hsub.
Qed.

Lemma signedSum_app (l1 l2 : list Transaction.t) :
  signedSum (l1 ++ l2) = signedSum l1 + signedSum l2.
Proof. unfold signedSum. induction l1 as [|t l1 IH]; cbn; [done|]. rewrite IH. lia. Qed.

Lemma transactionsOf_app userId w w' t :
  transactions w' = transactions w ++ [t] →
  transactionsOf userId w' =
  transactionsOf userId w ++
  (if bool_decide (Transaction.userId (docData t) = userId) then [docData t] else []).
Proof.
  intros Hts. unfold transactionsOf. rewrite Hts, fmap_app, filter_app. f_equal.
  change (docData <$> [t]) with [docData t]. case_bool_decide.
  - by rewrite filter_cons_True.
  - by rewrite filter_cons_False.
Qed.

Lemma ledgerEffect_consistent w w' :
  ledgerEffect w w' → ledgerConsistent w → ledgerConsistent w'.
Proof.
  intros [[Hts Hbal]|(t & Hts & _ & Hbal)] Hw userId.
  - rewrite Hbal, <- Hw. unfold transactionsOf. by rewrite Hts.
  - rewrite Hbal, <- Hw, (transactionsOf_app userId w w' t Hts), signedSum_app.
    case_bool_decide; cbn; lia.
Qed.

Lemma reachable_invariant w :
  reachable w → authConsistent w ∧ ledgerConsistent w.
Proof.
  induction 1 as [ids uids clock Hinj|c w _ [Hauth Hledger] Hc|email w _ [Hauth Hledger]].
  - split.
    + split_and!; [done|..].
      * intros k a Hk. cbn in Hk. by rewrite lookup_nil in Hk.
      * intros uid [u Hu]. cbn in Hu. by rewrite lookup_empty in Hu.
    + intros userId. unfold balanceOf. cbn. by rewrite lookup_empty.
  - destruct (effect_step c w Hauth Hc) as [Hauth' Heff].
    split; [done|]. by apply (ledgerEffect_consistent w).
  - split; [by apply authConsistent_providerSignIn|].
    intros userId. specialize (Hledger userId).
    unfold providerSignIn. by case_bool_decide.
Qed.

Lemma reachable_runCalls cs w :
  reachable w → Forall (λ c, ∀ w', callable c w') cs → reachable (runCalls cs w).
Proof.
  intros Hw Hcs. revert w Hw. induction Hcs as [|c cs Hc _ IH]; intros w Hw; [done|].
  cbn. apply IH. by apply reachable_call.
Qed.


(** * The shop: the theorems at work, and where the code departs *)

Lemma reachable_shop : reachable shop.
Proof.
  unfold shop, shopPending. apply reachable_call; [|done].
  apply reachable_runCalls.
  - apply reachable_empty, pretty_nat_inj.
  - repeat (apply Forall_cons; split; [by intros ?|]). apply Forall_nil_2.
Qed.

(** Balance 500 against a price of 999. *)
Lemma createRequest_insufficient_funds_witness :
  users shop !! "0" = Some (alice 500 []) ∧
  products shop !! "doc0" = Some (shaderPack true 0 0) ∧
  User.walletBalance (alice 500 []) < Product.price (shaderPack true 0 0) ∧
  ∃ w',
    exec (createRequest "0" "doc0" None true) shop =
      (w', Rejected (JsError "Insufficient balance")) ∧
    requests w' = requests shop ∧
    transactions w' = transactions shop ∧
    users w' = users shop ∧
    User.walletBalance <$> users w' !! "0" = Some (User.walletBalance (alice 500 [])) ∧
    Product.salesCount <$> products w' !! "doc0" =
      Some (Product.salesCount (shaderPack true 0 0)).
Proof.
  assert (users shop !! "0" = Some (alice 500 [])) as Hu by (vm_compute; reflexivity).
  assert (products shop !! "doc0" = Some (shaderPack true 0 0)) as Hp
    by (vm_compute; reflexivity).
  assert (User.walletBalance (alice 500 []) < Product.price (shaderPack true 0 0)) as Hb
    by (vm_compute; reflexivity).
  split_and!; [exact Hu | exact Hp | exact Hb |].
  exact (createRequest_insufficient_funds "0" "doc0" None shop _ _ Hu Hp Hb).
Defined.

(** The product of the shop, read once and asked for once. *)
Lemma getProductById_counts_a_view_witness :
  products shop !! "doc0" = Some (shaderPack true 0 0) ∧
  products (exec (getProductById "doc0") shop).1 =
    <["doc0" := incrementViewCount 1 (shaderPack true 0 0)]> (products shop) ∧
  Product.viewCount <$> products (exec (getProductById "doc0") shop).1 !! "doc0" =
    Some (Product.viewCount (shaderPack true 0 0) + 1) ∧
  Product.viewCount <$>
    products (exec (createRequest "0" "doc0" None true) shop).1 !! "doc0" =
    Some (Product.viewCount (shaderPack true 0 0) + 1).
Proof.
  assert (products shop !! "doc0" = Some (shaderPack true 0 0)) as Hp
    by (vm_compute; reflexivity).
  split; [exact Hp|].
  exact (getProductById_counts_a_view "0" "doc0" None shop _ Hp).
Defined.

(** One saved filter, and an id it does not carry. *)
Lemma deleteUserFilter_unknown_id_witness :
  users shopFiltered !! "0" = Some (setSavedFilters [cheapFilter] (alice 500 [])) ∧
  ("filt7" ∉ SavedFilter.id <$>
             User.savedFilters (setSavedFilters [cheapFilter] (alice 500 []))) ∧
  exec (deleteUserFilter "0" "filt7") shopFiltered =
    (shopFiltered,
     Fulfilled (User.savedFilters (setSavedFilters [cheapFilter] (alice 500 [])))).
Proof.
  assert (users shopFiltered !! "0" =
          Some (setSavedFilters [cheapFilter] (alice 500 []))) as Hu
    by (vm_compute; reflexivity).
  assert ("filt7" ∉ (SavedFilter.id <$>
            User.savedFilters (setSavedFilters [cheapFilter] (alice 500 [])))) as Hnot.
  { apply (bool_decide_unpack _). vm_compute. exact I. }
  split_and!; [exact Hu | exact Hnot |].
  exact (deleteUserFilter_unknown_id "0" "filt7" shopFiltered _ Hu Hnot).
Defined.


(** The product still awaits moderation, balance 1000. *)
Lemma createRequest_ignores_moderation_witness :
  users shopPending1000 !! "0" = Some (alice 1000 []) ∧
  products shopPending1000 !! "doc0" = Some (shaderPack false 0 0) ∧
  moderationState (shaderPack false 0 0) ≠ ModApproved ∧
  Product.price (shaderPack false 0 0) ≤ User.walletBalance (alice 1000 []) ∧
  ∃ w' request,
    exec (createRequest "0" "doc0" None true) shopPending1000 = (w', Fulfilled request) ∧
    users w' !! "0" =
      Some (incrementWalletBalance (- Product.price (shaderPack false 0 0))
              (alice 1000 [])) ∧
    transactions w' =
      transactions shopPending1000 ++
      [withId (autoId shopPending1000 (nextId shopPending1000))
         (Transaction.mk "0" (- Product.price (shaderPack false 0 0)) purchase
            ("Purchased " +:+ Product.title (shaderPack false 0 0))
            (dateNow shopPending1000 (ticks shopPending1000)))] ∧
    products w' !! "doc0" =
      Some (incrementSalesCount 1 (incrementViewCount 1 (shaderPack false 0 0))) ∧
    (moderationState <$> products w' !! "doc0") =
      Some (moderationState (shaderPack false 0 0)) ∧
    requests w' = requests shopPending1000 ++ [request] ∧
    Request.status (docData request) = APPROVED.
Proof.
  assert (users shopPending1000 !! "0" = Some (alice 1000 [])) as Hu
    by (vm_compute; reflexivity).
  assert (products shopPending1000 !! "doc0" = Some (shaderPack false 0 0)) as Hp
    by (vm_compute; reflexivity).
  assert (moderationState (shaderPack false 0 0) ≠ ModApproved) as Hm
    by (vm_compute; discriminate).
  assert (Product.price (shaderPack false 0 0) ≤ User.walletBalance (alice 1000 [])) as Hb
    by (vm_compute; discriminate).
  split_and!; [exact Hu | exact Hp | exact Hm | exact Hb |].
  exact (createRequest_ignores_moderation "0" "doc0" None shopPending1000 _ _ Hu Hp Hm Hb).
Defined.



(** The pending product, approved and then rejected. *)
Lemma moderation_is_unconditional_witness :
  products shopPending !! "doc0" = Some (shaderPack false 0 0) ∧
  ∃ w', exec (rejectProduct "doc0") (exec (approveProduct "doc0") shopPending).1 =
          (w', Fulfilled true) ∧
        moderationState <$> products w' !! "doc0" = Some ModRejected.
Proof.
  assert (products shopPending !! "doc0" = Some (shaderPack false 0 0)) as Hp
    by (vm_compute; reflexivity).
  split; [exact Hp|].
  exact (proj2 (proj2 (moderation_is_unconditional "doc0" shopPending _ Hp))).
Defined.

(** The first of two wished products, toggled twice. *)
Lemma toggleWishlist_twice_witness :
  users shopWishing !! "0" = Some (alice 500 ["doc0"; "doc7"]) ∧
  ∃ w1 w2 list1 list2,
    exec (toggleWishlist "0" "doc0") shopWishing = (w1, Fulfilled list1) ∧
    exec (toggleWishlist "0" "doc0") w1 = (w2, Fulfilled list2) ∧
    users w1 !! "0" = Some (setWishlist list1 (alice 500 ["doc0"; "doc7"])) ∧
    users w2 !! "0" = Some (setWishlist list2 (alice 500 ["doc0"; "doc7"])) ∧
    ("doc0" ∈ list1 ↔ "doc0" ∉ User.wishlist (alice 500 ["doc0"; "doc7"])) ∧
    (∀ id, id ≠ "doc0" → id ∈ list1 ↔ id ∈ User.wishlist (alice 500 ["doc0"; "doc7"])) ∧
    (∀ id, id ∈ list2 ↔ id ∈ User.wishlist (alice 500 ["doc0"; "doc7"])) ∧
    ("doc0" ∉ User.wishlist (alice 500 ["doc0"; "doc7"]) →
     list2 = User.wishlist (alice 500 ["doc0"; "doc7"])) ∧
    ("doc0" ∈ User.wishlist (alice 500 ["doc0"; "doc7"]) →
     list2 =
     filter (λ id, id ≠ "doc0") (User.wishlist (alice 500 ["doc0"; "doc7"])) ++ ["doc0"]).
Proof.
  assert (users shopWishing !! "0" = Some (alice 500 ["doc0"; "doc7"])) as Hu
    by (vm_compute; reflexivity).
  split; [exact Hu|].
  exact (toggleWishlist_twice "0" "doc0" shopWishing _ Hu).
Defined.





(** C4, as stated, fails: on the product [approveProduct] has approved,
    [rejectProduct] is fulfilled with [true], not rejected, and the product
    ends rejected. *)
Lemma rejectProduct_after_approveProduct :
  moderationState <$> products shopPending !! "doc0" = Some ModPending ∧
  moderationState <$>
    products (exec (approveProduct "doc0") shopPending).1 !! "doc0" = Some ModApproved ∧
  (exec (rejectProduct "doc0") (exec (approveProduct "doc0") shopPending).1).2 =
    Fulfilled true ∧
  moderationState <$>
    products (exec (rejectProduct "doc0")
                (exec (approveProduct "doc0") shopPending).1).1 !! "doc0" =
    Some ModRejected ∧
  ¬ ((∃ e, (exec (rejectProduct "doc0")
              (exec (approveProduct "doc0") shopPending).1).2 = Rejected e) ∧
     moderationState <$>
       products (exec (rejectProduct "doc0")
                   (exec (approveProduct "doc0") shopPending).1).1 !! "doc0" =
       Some ModApproved).
Proof.
  split_and!; try (vm_compute; reflexivity).
  intros [[e He] _]. vm_compute in He. discriminate.
Qed.

(** C6, as stated, fails: the wallet purchase of a product that still
    awaits moderation is fulfilled; the balance goes from 1000 to 1, a
    purchase record of -999 is appended, the sales go from 0 to 1 and an
    Approved request is stored. *)
Lemma createRequest_unapproved_product_sold :
  moderationState <$> products shopPending1000 !! "doc0" = Some ModPending ∧
  balanceOf shopPending1000 "0" = 1000 ∧
  (exec (createRequest "0" "doc0" None true) shopPending1000).2 =
    Fulfilled
      (withId "doc4"
         (Request.mk "0" "doc0" "" APPROVED 1700000000006 (Some 1700000000007) true)) ∧
  balanceOf (exec (createRequest "0" "doc0" None true) shopPending1000).1 "0" = 1 ∧
  transactions (exec (createRequest "0" "doc0" None true) shopPending1000).1 =
    transactions shopPending1000 ++
    [withId "doc3"
       (Transaction.mk "0" (-999) purchase "Purchased Shader pack" 1700000000005)] ∧
  Product.salesCount <$>
    products (exec (createRequest "0" "doc0" None true) shopPending1000).1 !! "doc0" =
    Some 1 ∧
  length (requests (exec (createRequest "0" "doc0" None true) shopPending1000).1) =
    S (length (requests shopPending1000)) ∧
  ¬ (balanceOf (exec (createRequest "0" "doc0" None true) shopPending1000).1 "0" =
     balanceOf shopPending1000 "0").
Proof.
  split_and!; try (vm_compute; reflexivity).
  vm_compute. discriminate.
Qed.


(** C9, as stated, fails: toggling ["doc0"] twice on the wishlist
    [["doc0"; "doc7"]] stores [["doc7"; "doc0"]]. *)
Lemma toggleWishlist_twice_reorders :
  User.wishlist <$> users shopWishing !! "0" = Some ["doc0"; "doc7"] ∧
  (exec (toggleWishlist "0" "doc0") shopWishing).2 = Fulfilled ["doc7"] ∧
  (exec (toggleWishlist "0" "doc0")
     (exec (toggleWishlist "0" "doc0") shopWishing).1).2 = Fulfilled ["doc7"; "doc0"] ∧
  User.wishlist <$>
    users (exec (toggleWishlist "0" "doc0")
             (exec (toggleWishlist "0" "doc0") shopWishing).1).1 !! "0" =
    Some ["doc7"; "doc0"] ∧
  User.wishlist <$>
    users (exec (toggleWishlist "0" "doc0")
             (exec (toggleWishlist "0" "doc0") shopWishing).1).1 !! "0" ≠
  User.wishlist <$> users shopWishing !! "0".
Proof.
  split_and!; try (vm_compute; reflexivity).
  vm_compute. discriminate.
Qed.

(** * Accounts: registration, login, external identities *)




(** X2. A registration without a password ([undefined] or the empty
    string) is fulfilled with [null], and one with an e-mail Firebase Auth
    already knows is rejected by Auth; a login without a password is
    fulfilled with [null] too.  In each case the store is left as it was:
    no auth account is created and no profile is written or reset. *)
Theorem register_refused name email password w :
  missing password = true ∨ email ∈ (AuthAccount.email <$> authAccounts w) →
  exec (register name email password) w =
    (w, if missing password then Fulfilled None
        else Rejected (FirebaseError "auth/email-already-in-use")) ∧
  (missing password = true → exec (login email password) w = (w, Fulfilled None)).
Proof.
  intros Hcase. split.
  - unfold register. destruct (missing password) eqn:Hpw; [done|].
    destruct Hcase as [?|Hemail]; [done|]. open_world w.
    by rewrite bool_decide_eq_true_2.
  - intros Hpw. unfold login. by rewrite Hpw.
Qed.

(** X3. [syncExternalUser] never overwrites a profile: when the document
    exists it is returned and the store is left as it was.  Otherwise a
    profile with balance zero is stored, named after [displayName] or
    ['Cyber Agent'].  Either way the profile returned is the one stored, no
    other account changes, and a second call returns the same profile
    and writes nothing. *)
Theorem syncExternalUser_idempotent firebaseUser w :
  ∃ w1 user,
    exec (syncExternalUser firebaseUser) w = (w1, Fulfilled user) ∧
    users w1 !! FirebaseUser.uid firebaseUser = Some user ∧
    exec (syncExternalUser firebaseUser) w1 = (w1, Fulfilled user) ∧
    (∀ stored, users w !! FirebaseUser.uid firebaseUser = Some stored →
       w1 = w ∧ user = stored) ∧
    (users w !! FirebaseUser.uid firebaseUser = None →
       User.walletBalance user = 0 ∧ User.isPro user = false ∧
       User.name user = orString (FirebaseUser.displayName firebaseUser) "Cyber Agent" ∧
       User.avatar user = FirebaseUser.photoURL firebaseUser) ∧
    (∀ uid, uid ≠ FirebaseUser.uid firebaseUser → users w1 !! uid = users w !! uid) ∧
    transactions w1 = transactions w.
Proof.
  unfold syncExternalUser.
  destruct w as [us ps ts rs accounts n t ids uids clock]; cbn in *.
  destruct (us !! FirebaseUser.uid firebaseUser) as [stored|] eqn:Hu; cbn.
  - eexists _, _. split; [done|]. cbn. rewrite Hu. cbn.
    split_and!; try done. by intros ? [= ->].
  - eexists _, _. split; [done|]. cbn. rewrite lookup_insert_eq. cbn.
    split_and!; try done. intros uid Hne. by rewrite lookup_insert_ne.
Qed.

(** * Profile settings *)

Lemma exec_updateNotificationSettings_found userId settings w user :
  users w !! userId = Some user →
  exec (updateNotificationSettings userId settings) w =
  (withUsers (<[userId := setNotificationSettings settings user]> (users w)) w,
   Fulfilled (Some (setNotificationSettings settings user))).
Proof.
  intros Hu. unfold updateNotificationSettings, getSellerData. open_world w.
  rewrite Hu. cbn. by rewrite lookup_insert_eq.
Qed.

(** X4. On an existing account [updateNotificationSettings] stores the
    settings it is given and returns the profile as stored, with the
    balance, Pro status, wishlist and saved filters untouched.  The last
    write wins: two updates in a row leave the store the second alone
    would have left. *)
Theorem updateNotificationSettings_last_write_wins userId first second w user :
  users w !! userId = Some user →
  ∃ w1 w2 user2,
    exec (updateNotificationSettings userId first) w =
      (w1, Fulfilled (Some (setNotificationSettings first user))) ∧
    exec (updateNotificationSettings userId second) w1 = (w2, Fulfilled (Some user2)) ∧
    exec (updateNotificationSettings userId second) w = (w2, Fulfilled (Some user2)) ∧
    exec (getSellerData userId) w2 = (w2, Fulfilled (Some user2)) ∧
    User.notificationSettings user2 = second ∧
    User.walletBalance user2 = User.walletBalance user ∧
    User.isPro user2 = User.isPro user ∧
    User.proExpiry user2 = User.proExpiry user ∧
    User.wishlist user2 = User.wishlist user ∧
    User.savedFilters user2 = User.savedFilters user.
Proof.
  intros Hu. eexists _, _, _. split.
  { by apply exec_updateNotificationSettings_found. }
  split.
  { apply exec_updateNotificationSettings_found. cbn. apply lookup_insert_eq. }
  split.
  { rewrite (exec_updateNotificationSettings_found _ _ _ _ Hu).
    open_world w. by rewrite insert_insert_eq. }
  unfold getSellerData. open_world w. by rewrite lookup_insert_eq.
Qed.

(** * Unknown accounts and products *)

Lemma exec_saveUserFilter_missing userId filter w :
  users w !! userId = None →
  exec (saveUserFilter userId filter) w = (w, Fulfilled []).
Proof.
  intros Hu. unfold saveUserFilter, getSellerData. open_world w. by rewrite Hu.
Qed.

Lemma exec_deleteUserFilter_missing userId filterId w :
  users w !! userId = None →
  exec (deleteUserFilter userId filterId) w = (w, Fulfilled []).
Proof.
  intros Hu. unfold deleteUserFilter, getSellerData. open_world w. by rewrite Hu.
Qed.

Lemma exec_updateNotificationSettings_missing userId settings w :
  users w !! userId = None →
  exec (updateNotificationSettings userId settings) w =
  (w, Rejected (FirebaseError "not-found")).
Proof.
  intros Hu. unfold updateNotificationSettings. open_world w. by rewrite Hu.
Qed.

(** X5. For a user id that has no account document the [api] answers in
    three ways, and writes nothing in any of them: [toggleWishlist],
    [saveUserFilter] and [deleteUserFilter] are fulfilled with the empty
    list, [upgradeToPro] with [null]; [addFunds] and
    [updateNotificationSettings] are rejected by Firestore ([not-found]),
    and [addFunds] leaves no deposit record behind. *)
Theorem unknown_account userId productId filter filterId amount settings w :
  users w !! userId = None →
  exec (toggleWishlist userId productId) w = (w, Fulfilled []) ∧
  exec (saveUserFilter userId filter) w = (w, Fulfilled []) ∧
  exec (deleteUserFilter userId filterId) w = (w, Fulfilled []) ∧
  exec (upgradeToPro userId) w = (w, Fulfilled None) ∧
  exec (addFunds userId amount) w = (w, Rejected (FirebaseError "not-found")) ∧
  exec (updateNotificationSettings userId settings) w =
    (w, Rejected (FirebaseError "not-found")).
Proof.
  intros Hu. split_and!.
  - by apply exec_toggleWishlist_missing.
  - by apply exec_saveUserFilter_missing.
  - by apply exec_deleteUserFilter_missing.
  - by apply exec_upgradeToPro_missing.
  - by apply exec_addFunds_missing.
  - by apply exec_updateNotificationSettings_missing.
Qed.

(** X6. For a product id that has no document, [getProductById] is
    fulfilled with [null], [approveProduct] and [rejectProduct] are
    rejected by Firestore ([not-found]) and [createRequest] is rejected
    with "Entity missing", for a wallet purchase as for a payment proof;
    none of them writes anything, and no document is created for the id. *)
Theorem unknown_product userId productId paymentProof isWalletPurchase w :
  products w !! productId = None →
  exec (getProductById productId) w = (w, Fulfilled None) ∧
  exec (approveProduct productId) w = (w, Rejected (FirebaseError "not-found")) ∧
  exec (rejectProduct productId) w = (w, Rejected (FirebaseError "not-found")) ∧
  exec (createRequest userId productId paymentProof isWalletPurchase) w =
    (w, Rejected (JsError "Entity missing")).
Proof.
  intros Hp. split_and!.
  - by apply exec_getProductById_missing.
  - by apply exec_approveProduct_missing.
  - by apply exec_rejectProduct_missing.
  - by apply exec_createRequest_no_product.
Qed.

(** * Sorting *)

Section Sort.
Context {A : Type} (le : A → A → bool).

Lemma insertSorted_Permutation x l : insertSorted le x l ≡ₚ x :: l.
Proof.
  induction l as [|y l IH]; cbn; [done|].
  destruct (le x y); [done|]. rewrite IH. apply Permutation_swap.
Qed.

Lemma sort_Permutation l : sort le l ≡ₚ l.
Proof.
  induction l as [|x l IH]; cbn; [done|].
  by rewrite insertSorted_Permutation, IH.
Qed.

Lemma elem_of_sort x l : x ∈ sort le l ↔ x ∈ l.
Proof. by rewrite sort_Permutation. Qed.

Lemma length_sort l : length (sort le l) = length l.
Proof. by rewrite sort_Permutation. Qed.

Hypothesis le_total : ∀ a b, le a b = false → le b a = true.

Lemma insertSorted_Sorted x l :
  Sorted (λ a b, le a b = true) l → Sorted (λ a b, le a b = true) (insertSorted le x l).
Proof.
  induction 1 as [|y l Hl IH Hhd]; cbn; [by repeat constructor|].
  destruct (le x y) eqn:Hxy.
  - by repeat constructor.
  - constructor; [done|].
    destruct Hhd as [|z l Hyz]; cbn.
    + constructor. by apply le_total.
    + destruct (le x z); constructor; [by apply le_total|done].
Qed.

Lemma sort_Sorted l : Sorted (λ a b, le a b = true) (sort le l).
Proof.
  induction l as [|x l IH]; cbn; [constructor|].
  by apply insertSorted_Sorted.
Qed.

End Sort.

Lemma Sorted_weaken {A : Type} (R R' : A → A → Prop) l :
  (∀ a b, R a b → R' a b) → Sorted R l → Sorted R' l.
Proof.
  intros HR. induction 1 as [|x l _ IH Hhd]; constructor; [done|].
  destruct Hhd; constructor. by apply HR.
Qed.

Lemma newestFirst_total {A : Type} (createdAt : A → Z) (a b : WithId A) :
  newestFirst createdAt a b = false → newestFirst createdAt b a = true.
Proof.
  unfold newestFirst. intros H.
  apply orb_false_iff in H as [Hlt Htie].
  apply bool_decide_eq_false in Hlt.
  destruct (decide (createdAt (docData a) = createdAt (docData b))) as [Heq|Hne].
  - rewrite (bool_decide_eq_true_2 _ Heq) in Htie. cbn in Htie.
    rewrite (bool_decide_eq_true_2 (createdAt (docData b) = createdAt (docData a)))
      by done.
    destruct (String.leb_total (docId a) (docId b)) as [Hab|Hba]; [|congruence].
    rewrite Hab. apply orb_true_r.
  - rewrite bool_decide_eq_true_2; [done|lia].
Qed.

Lemma newestFirst_createdAt {A : Type} (createdAt : A → Z) (a b : WithId A) :
  newestFirst createdAt a b = true → createdAt (docData b) ≤ createdAt (docData a).
Proof.
  unfold newestFirst. intros H. apply orb_true_iff in H as [H|H].
  - apply bool_decide_eq_true in H. lia.
  - apply andb_true_iff in H as [H _]. apply bool_decide_eq_true in H. lia.
Qed.

Lemma productOrder_total sortBy a b :
  productOrder sortBy a b = false → productOrder sortBy b a = true.
Proof.
  unfold productOrder. repeat case_bool_decide; try done; lia.
Qed.

(** * The queries *)

(** [includes] is the substring test. *)
Lemma prefix_append (t s : string) :
  String.prefix t s = true ↔ ∃ post, s = t +:+ post.
Proof.
  revert s. induction t as [|a t IH]; intros s.
  - destruct s; cbn; split; eauto.
  - destruct s as [|b s]; cbn.
    + split; [done|]. by intros [post ?].
    + destruct (Ascii.ascii_dec a b) as [->|Hne].
      * rewrite IH. split; intros [post H]; exists post.
        -- by rewrite H.
        -- cbn in H. by injection H.
      * split; [done|]. intros [post H]. cbn in H. by injection H.
Qed.

Lemma includes_substring (s term : string) :
  includes s term = true ↔ ∃ pre post, s = pre +:+ term +:+ post.
Proof.
  induction s as [|a s IH]; cbn [includes]; rewrite orb_true_iff, prefix_append.
  - split.
    + intros [[post H]|?]; [|done]. by exists "", post.
    + intros (pre & post & H). left. destruct pre; [by exists post|by cbn in H].
  - rewrite IH. split.
    + intros [[post H]|(pre & post & ->)]; [by exists "", post|].
      by exists (String a pre), post.
    + intros ([|b pre] & post & H); [left; by exists post|].
      right. cbn in H. injection H as _ ->. eauto.
Qed.


Lemma elem_of_docsOf {A : Type} (m : gmap string A) (d : WithId A) :
  d ∈ docsOf m ↔ m !! docId d = Some (docData d).
Proof.
  unfold docsOf. rewrite elem_of_sort, list_elem_of_fmap. split.
  - intros ([id data] & -> & Hin). cbn. by apply elem_of_map_to_list.
  - intros Hd. exists (docId d, docData d). split; [by destruct d|].
    by apply elem_of_map_to_list.
Qed.

Lemma NoDup_docsOf {A : Type} (m : gmap string A) : NoDup (docId <$> docsOf m).
Proof.
  unfold docsOf. rewrite sort_Permutation, <- list_fmap_compose.
  apply (NoDup_fst_map_to_list m).
Qed.

Lemma NoDup_ids_filter {A : Type} (P : WithId A → Prop) `{!∀ x, Decision (P x)}
    (l : list (WithId A)) :
  NoDup (docId <$> l) → NoDup (docId <$> filter P l).
Proof.
  intros Hl. apply (sublist_NoDup _ (docId <$> l)); [exact Hl|].
  apply fmap_sublist, sublist_filter.
Qed.

Lemma elem_of_getPublicProducts toLowerCase filters w q :
  q ∈ getPublicProducts toLowerCase filters w ↔
  products w !! docId q = Some (docData q) ∧
  Product.approved (docData q) = true ∧
  (missing (Filters.searchTerm filters) = false →
   matchesTerm toLowerCase
     (toLowerCase (orString (Filters.searchTerm filters) "")) q) ∧
  (missing (Filters.category filters) = false →
   Filters.category filters ≠ Some "All" →
   Some (Product.category (docData q)) = Filters.category filters).
Proof.
  unfold getPublicProducts. rewrite elem_of_sort.
  destruct (missing (Filters.searchTerm filters)) eqn:Hs,
           (missing (Filters.category filters)) eqn:Hc; cbn;
    try case_bool_decide;
    rewrite ?list_elem_of_filter, elem_of_docsOf; intuition congruence.
Qed.

(** X7. [getPublicProducts] returns exactly the stored products that are
    approved and pass the filters, each once: a search term (when given and
    not empty) must occur in the lower-cased title or category, and a
    category (when given, not empty and not ['All']) must be the
    product's own.  A product that is pending or rejected is never
    returned, whatever the filters. *)
Theorem getPublicProducts_lists toLowerCase filters w q :
  (q ∈ getPublicProducts toLowerCase filters w ↔
   products w !! docId q = Some (docData q) ∧
   Product.approved (docData q) = true ∧
   (missing (Filters.searchTerm filters) = false →
    matchesTerm toLowerCase
      (toLowerCase (orString (Filters.searchTerm filters) "")) q) ∧
   (missing (Filters.category filters) = false →
    Filters.category filters ≠ Some "All" →
    Some (Product.category (docData q)) = Filters.category filters)) ∧
  NoDup (docId <$> getPublicProducts toLowerCase filters w).
Proof.
  split.
  - apply elem_of_getPublicProducts.
  - unfold getPublicProducts. rewrite sort_Permutation.
    destruct (missing (Filters.searchTerm filters)),
             (missing (Filters.category filters)); cbn;
      try case_bool_decide;
      repeat apply NoDup_ids_filter; apply NoDup_docsOf.
Qed.

(** X8. The list [getPublicProducts] returns is in the order asked for:
    by ascending price for ['PriceLow'], by descending price for
    ['PriceHigh'], newest first for ['Newest'], and by descending
    [salesCount] for any other or no [sortBy]. *)
Theorem getPublicProducts_sorted toLowerCase filters w :
  (Filters.sortBy filters = Some "PriceLow" →
   Sorted (λ a b, Product.price (docData a) ≤ Product.price (docData b))
     (getPublicProducts toLowerCase filters w)) ∧
  (Filters.sortBy filters = Some "PriceHigh" →
   Sorted (λ a b, Product.price (docData b) ≤ Product.price (docData a))
     (getPublicProducts toLowerCase filters w)) ∧
  (Filters.sortBy filters = Some "Newest" →
   Sorted (λ a b, Product.createdAt (docData b) ≤ Product.createdAt (docData a))
     (getPublicProducts toLowerCase filters w)) ∧
  (Filters.sortBy filters ≠ Some "PriceLow" →
   Filters.sortBy filters ≠ Some "PriceHigh" →
   Filters.sortBy filters ≠ Some "Newest" →
   Sorted (λ a b, Product.salesCount (docData b) ≤ Product.salesCount (docData a))
     (getPublicProducts toLowerCase filters w)).
Proof.
  unfold getPublicProducts.
  pose proof (λ l, sort_Sorted (productOrder (Filters.sortBy filters))
                     (productOrder_total (Filters.sortBy filters)) l) as Hsorted.
  split_and!; intros; (eapply Sorted_weaken; [|apply Hsorted]);
    intros a b; unfold productOrder; repeat case_bool_decide; intros ?;
    try done; try congruence; lia.
Qed.



(** X9. [getTransactions] returns the records of the account it is asked
    about, all of them and no other, each as often as it is stored, newest
    first. *)
Theorem getTransactions_lists userId w :
  getTransactions userId w ≡ₚ
    filter (λ t, Transaction.userId (docData t) = userId) (transactions w) ∧
  (∀ t, t ∈ getTransactions userId w ↔
        t ∈ transactions w ∧ Transaction.userId (docData t) = userId) ∧
  Sorted (λ a b, Transaction.createdAt (docData b) ≤ Transaction.createdAt (docData a))
    (getTransactions userId w).
Proof.
  unfold getTransactions. split_and!.
  - apply sort_Permutation.
  - intros t. rewrite elem_of_sort, list_elem_of_filter. tauto.
  - eapply Sorted_weaken; [|apply sort_Sorted, newestFirst_total].
    intros a b. apply newestFirst_createdAt.
Qed.



(** X11. [getAllProductsAdmin] returns every stored product, pending and
    rejected ones included, each once and by ascending document id;
    [getUserSubmissions] returns those of them whose [sellerId] is the
    user's. *)
Theorem admin_and_seller_listings userId w q :
  (q ∈ getAllProductsAdmin w ↔ products w !! docId q = Some (docData q)) ∧
  (q ∈ getUserSubmissions userId w ↔
   products w !! docId q = Some (docData q) ∧ Product.sellerId (docData q) = userId) ∧
  NoDup (docId <$> getAllProductsAdmin w) ∧
  NoDup (docId <$> getUserSubmissions userId w) ∧
  Sorted (λ a b, String.leb (docId a) (docId b) = true) (getAllProductsAdmin w) ∧
  length (getAllProductsAdmin w) = size (products w).
Proof.
  unfold getAllProductsAdmin. split_and!.
  - apply elem_of_docsOf.
  - unfold getUserSubmissions. rewrite list_elem_of_filter, elem_of_docsOf. tauto.
  - apply NoDup_docsOf.
  - unfold getUserSubmissions. apply NoDup_ids_filter, NoDup_docsOf.
  - apply sort_Sorted. intros a b Hab.
    destruct (String.leb_total (docId a) (docId b)); congruence.
  - unfold docsOf. by rewrite length_sort, length_fmap, length_map_to_list.
Qed.

Lemma Sorted_take {A : Type} (R : A → A → Prop) n l :
  Sorted R l → Sorted R (take n l).
Proof.
  intros Hl. revert n. induction Hl as [|x l _ IH Hhd]; intros [|n]; cbn;
    try constructor; [apply IH|].
  destruct Hhd; destruct n; constructor. done.
Qed.

(** X12. [getNotifications] returns at most twenty notifications, all of
    them stored and addressed to the user, newest first; none that is
    left out is newer than one that is returned, and when the user has
    twenty or fewer, all are returned. *)
Theorem getNotifications_newest_twenty userId notifications :
  (length (getNotifications userId notifications) ≤ 20)%nat ∧
  (∀ n, n ∈ getNotifications userId notifications →
        n ∈ notifications ∧ Notification.to (docData n) = userId) ∧
  Sorted (λ a b, Notification.createdAt (docData b) ≤ Notification.createdAt (docData a))
    (getNotifications userId notifications) ∧
  (∃ rest,
     getNotifications userId notifications ++ rest ≡ₚ
       filter (λ n, Notification.to (docData n) = userId) notifications ∧
     ((length (filter (λ n, Notification.to (docData n) = userId) notifications) ≤ 20)%nat →
      rest = []) ∧
     ∀ kept left, kept ∈ getNotifications userId notifications → left ∈ rest →
       Notification.createdAt (docData left) ≤ Notification.createdAt (docData kept)).
Proof.
  unfold getNotifications.
  set (mine := filter (λ n, Notification.to (docData n) = userId) notifications).
  set (sorted := sort (newestFirst Notification.createdAt) mine).
  assert (Sorted (λ a b, Notification.createdAt (docData b) ≤
                         Notification.createdAt (docData a)) sorted) as Hsorted.
  { eapply Sorted_weaken; [|apply sort_Sorted, newestFirst_total].
    intros a b. apply newestFirst_createdAt. }
  split_and!.
  - rewrite length_take. lia.
  - intros n Hn. apply elem_of_take in Hn as (i & Hn & _).
    apply list_elem_of_lookup_2 in Hn.
    unfold sorted in Hn. rewrite elem_of_sort in Hn.
    unfold mine in Hn. by apply list_elem_of_filter in Hn as [? ?].
  - by apply Sorted_take.
  - exists (drop 20 sorted). split_and!.
    + rewrite take_drop. apply sort_Permutation.
    + intros Hlen. apply drop_ge. unfold sorted. by rewrite length_sort.
    + intros kept left Hkept Hleft.
      apply Sorted_StronglySorted in Hsorted; [|intros x y z; lia].
      rewrite <- (take_drop 20 sorted) in Hsorted.
      apply (StronglySorted_app_1_elem_of _ _ _ _ _ Hsorted); done.
Qed.

(** * Submitting and moderating products *)

Lemma exec_submitProduct userId userName productData w :
  let newProduct :=
    Product.mk (Product.title productData) (Product.description productData)
      (Product.price productData) (Product.previewImage productData)
      (Product.images productData) (Product.mediafireLink productData)
      false (Product.rejected productData) userId userName
      (Product.category productData) (Product.tags productData)
      (dateNow w (ticks w)) 0 0 0 0 0 (dateNow w (S (ticks w))) []
      (Some (from_option User.isPro false (users w !! userId))) in
  exec (submitProduct userId userName productData) w =
  (mkWorld (users w) (<[autoId w (nextId w) := newProduct]> (products w))
     (transactions w) (requests w) (authAccounts w) (S (nextId w)) (S (S (ticks w)))
     (autoId w) (authUid w) (dateNow w),
   Fulfilled (withId (autoId w (nextId w)) newProduct)).
Proof.
  unfold submitProduct, getSellerData.
  destruct w as [us ps ts rs accounts n t ids uids clock]; cbn.
  by destruct (us !! userId).
Qed.



(** X15. [rejectProduct] takes an existing product out of every public
    listing.  An [approveProduct] that follows puts it back in the
    unfiltered listing, and the product then carries both flags:
    [approved] is true and [rejected] is still true.  Neither call changes
    the price or the counters. *)
Theorem rejection_delists_and_flag_stays toLowerCase filters sortBy productId w product :
  products w !! productId = Some product →
  ∃ w1 w2 relisted,
    exec (rejectProduct productId) w = (w1, Fulfilled true) ∧
    (productId ∉ docId <$> getPublicProducts toLowerCase filters w1) ∧
    exec (approveProduct productId) w1 = (w2, Fulfilled true) ∧
    products w2 !! productId = Some relisted ∧
    Product.approved relisted = true ∧
    Product.rejected relisted = Some true ∧
    Product.price relisted = Product.price product ∧
    Product.salesCount relisted = Product.salesCount product ∧
    Product.viewCount relisted = Product.viewCount product ∧
    withId productId relisted ∈
      getPublicProducts toLowerCase (Filters.mk None None sortBy) w2.
Proof.
  intros Hp. eexists _, _, _. split; [by apply exec_rejectProduct_found|].
  split.
  { intros Hin. apply list_elem_of_fmap in Hin as (q & Hid & Hq).
    apply elem_of_getPublicProducts in Hq as (Hq & Happroved & _).
    rewrite <- Hid in Hq. cbn in Hq. rewrite lookup_insert_eq in Hq.
    injection Hq as Hq. rewrite <- Hq in Happroved. done. }
  split.
  { apply exec_approveProduct_found. cbn. apply lookup_insert_eq. }
  cbn. rewrite lookup_insert_eq. split_and!; try done.
  apply elem_of_getPublicProducts. cbn. by rewrite lookup_insert_eq.
Qed.

(** * Purchase requests *)

(** X16. A request with a payment proof ([isWalletPurchase] false) by an
    existing account for an existing product is fulfilled whatever the
    balance and the moderation state: one request is appended, pending,
    with no approval time and with the proof given (or the empty string);
    no account and no transaction is touched, and of the product only the
    [viewCount] moves. *)
Theorem createRequest_payment_proof userId productId paymentProof w user product :
  users w !! userId = Some user →
  products w !! productId = Some product →
  ∃ w' request,
    exec (createRequest userId productId paymentProof false) w = (w', Fulfilled request) ∧
    requests w' = requests w ++ [request] ∧
    docId request = autoId w (nextId w) ∧
    Request.userId (docData request) = userId ∧
    Request.productId (docData request) = productId ∧
    Request.status (docData request) = PENDING ∧
    Request.approvedAt (docData request) = None ∧
    Request.isWalletPurchase (docData request) = false ∧
    Request.paymentProof (docData request) = orString paymentProof "" ∧
    Request.createdAt (docData request) = dateNow w (ticks w) ∧
    users w' = users w ∧
    transactions w' = transactions w ∧
    products w' = <[productId := incrementViewCount 1 product]> (products w) ∧
    Product.salesCount (incrementViewCount 1 product) = Product.salesCount product.
Proof.
  intros Hu Hp. eexists _, _. split.
  { apply (exec_createRequest_proof _ _ _ _ _ _ Hu Hp). }
  done.
Qed.

(** X17. The outcomes of [createRequest]: it is rejected with "Entity
    missing" exactly when the account or the product has no document, with
    "Insufficient balance" exactly when both exist, the purchase is by
    wallet and the balance is below the price, and it is fulfilled
    otherwise, with the request it has stored: approved for a wallet
    purchase, pending for a payment proof. *)
Theorem createRequest_outcome userId productId paymentProof isWalletPurchase w :
  match (exec (createRequest userId productId paymentProof isWalletPurchase) w).2 with
  | Rejected e =>
      (e = JsError "Entity missing" ∧
       (users w !! userId = None ∨ products w !! productId = None)) ∨
      (e = JsError "Insufficient balance" ∧ isWalletPurchase = true ∧
       ∃ user product,
         users w !! userId = Some user ∧ products w !! productId = Some product ∧
         User.walletBalance user < Product.price product)
  | Fulfilled request =>
      ∃ user product,
        users w !! userId = Some user ∧ products w !! productId = Some product ∧
        (isWalletPurchase = true → Product.price product ≤ User.walletBalance user) ∧
        Request.status (docData request) =
          (if isWalletPurchase then APPROVED else PENDING) ∧
        request ∈
          requests (exec (createRequest userId productId paymentProof isWalletPurchase) w).1
  end.
Proof.
  destruct (products w !! productId) as [product|] eqn:Hp.
  2:{ rewrite (exec_createRequest_no_product _ _ _ _ _ Hp). cbn. auto. }
  destruct (users w !! userId) as [user|] eqn:Hu.
  2:{ rewrite (exec_createRequest_no_user _ _ _ _ _ _ Hu Hp). cbn. auto. }
  destruct isWalletPurchase.
  2:{ rewrite (exec_createRequest_proof _ _ _ _ _ _ Hu Hp). cbn.
      exists user, product. split_and!; try done.
      apply elem_of_app. right. by apply list_elem_of_singleton. }
  destruct (decide (User.walletBalance user < Product.price product)) as [Hb|Hb].
  - rewrite (exec_createRequest_wallet_refused _ _ _ _ _ _ Hu Hp Hb). cbn.
    right. eauto 10.
  - rewrite (exec_createRequest_wallet_charged _ _ _ _ _ _ Hu Hp Hb). cbn.
    exists user, product. split_and!; try done; [lia|].
    apply elem_of_app. right. by apply list_elem_of_singleton.
Qed.


(** X19. An account that is Pro already can upgrade again: with a balance
    of 1998 or more two [upgradeToPro] in a row are both fulfilled, 999 is
    charged twice and two subscription records are appended.  The expiry
    is not extended from the previous one: it is the clock of the second
    call plus 365 days. *)
Theorem upgradeToPro_again userId w user :
  users w !! userId = Some user →
  1998 ≤ User.walletBalance user →
  ∃ w1 user1 w2 user2,
    exec (upgradeToPro userId) w = (w1, Fulfilled (Some user1)) ∧
    User.isPro user1 = true ∧
    User.proExpiry user1 = Some (dateNow w (ticks w) + 365 * 86400000) ∧
    exec (upgradeToPro userId) w1 = (w2, Fulfilled (Some user2)) ∧
    users w2 !! userId = Some user2 ∧
    User.walletBalance user2 = User.walletBalance user - 1998 ∧
    User.isPro user2 = true ∧
    User.proExpiry user2 = Some (dateNow w (S (S (ticks w))) + 365 * 86400000) ∧
    transactions w2 =
      transactions w ++
      [withId (autoId w (nextId w))
         (Transaction.mk userId (-999) subscription
            "Elite Pro Subscription (1 Year)" (dateNow w (S (ticks w))));
       withId (autoId w (S (nextId w)))
         (Transaction.mk userId (-999) subscription
            "Elite Pro Subscription (1 Year)" (dateNow w (S (S (S (ticks w))))))].
Proof.
  intros Hu Hb. eexists _, _, _, _. split.
  { apply (exec_upgradeToPro_charged _ _ _ Hu). lia. }
  split; [done|]. split; [done|]. split.
  { apply exec_upgradeToPro_charged.
    - cbn. apply lookup_insert_eq.
    - change (¬ User.walletBalance user + -999 < 999). lia. }
  cbn. rewrite lookup_insert_eq, <- app_assoc. split_and!; try done. lia.
Qed.

(** * Purchases of an account *)






(** * Saved filters *)

Lemma exec_saveUserFilter_found userId filter w user :
  users w !! userId = Some user →
  let saved :=
    SavedFilter.mk ("filt" +:+ pretty (dateNow w (ticks w))) (SavedFilter.label filter)
      (SavedFilter.searchTerm filter) (SavedFilter.category filter) in
  exec (saveUserFilter userId filter) w =
  (mkWorld
     (<[userId := setSavedFilters (User.savedFilters user ++ [saved]) user]> (users w))
     (products w) (transactions w) (requests w) (authAccounts w)
     (nextId w) (S (ticks w)) (autoId w) (authUid w) (dateNow w),
   Fulfilled (User.savedFilters user ++ [saved])).
Proof.
  intros Hu. unfold saveUserFilter, getSellerData. open_world w.
  rewrite Hu. cbn. by rewrite Hu.
Qed.

Lemma setSavedFilters_twice l l' user :
  setSavedFilters l (setSavedFilters l' user) = setSavedFilters l user.
Proof. by destruct user. Qed.

Lemma filter_out_saved (l : list SavedFilter.t) saved :
  (SavedFilter.id saved ∉ SavedFilter.id <$> l) →
  filter (λ f, SavedFilter.id f ≠ SavedFilter.id saved) (l ++ [saved]) = l.
Proof.
  intros Hfresh.
  rewrite filter_app, filter_cons_False, filter_nil, app_nil_r
    by (intros H; by apply H).
  apply filter_all, Forall_forall. intros f Hf Heq. apply Hfresh.
  apply list_elem_of_fmap. eauto.
Qed.

(** X21. [saveUserFilter] appends the filter under the id
    [filt<Date.now()>] and answers with the new list.  When no saved filter
    carries that id yet, a [deleteUserFilter] of it answers with the
    original list and leaves every account as it was before the filter was
    saved. *)
Theorem saveUserFilter_then_delete userId newFilter w user :
  users w !! userId = Some user →
  ("filt" +:+ pretty (dateNow w (ticks w)) ∉ SavedFilter.id <$> User.savedFilters user) →
  ∃ w1 saved w2,
    exec (saveUserFilter userId newFilter) w =
      (w1, Fulfilled (User.savedFilters user ++ [saved])) ∧
    users w1 !! userId =
      Some (setSavedFilters (User.savedFilters user ++ [saved]) user) ∧
    SavedFilter.id saved = "filt" +:+ pretty (dateNow w (ticks w)) ∧
    SavedFilter.label saved = SavedFilter.label newFilter ∧
    SavedFilter.searchTerm saved = SavedFilter.searchTerm newFilter ∧
    SavedFilter.category saved = SavedFilter.category newFilter ∧
    exec (deleteUserFilter userId (SavedFilter.id saved)) w1 =
      (w2, Fulfilled (User.savedFilters user)) ∧
    users w2 = users w.
Proof.
  intros Hu Hfresh.
  eexists _, _, _. split; [by apply exec_saveUserFilter_found|].
  split; [cbn; apply lookup_insert_eq|].
  do 4 (split; [done|]). split.
  - erewrite exec_deleteUserFilter_found by (cbn; apply lookup_insert_eq).
    change (User.savedFilters (setSavedFilters ?l _)) with l.
    rewrite filter_out_saved by exact Hfresh. reflexivity.
  - cbn.
    by rewrite insert_insert_eq, setSavedFilters_twice, setSavedFilters_same, insert_id.
Qed.

(** X22. The id of a saved filter is the clock reading: two filters saved
    within the same millisecond carry the same id, and a
    [deleteUserFilter] of that id removes them both. *)
Theorem saveUserFilter_same_instant userId first second w user :
  users w !! userId = Some user →
  dateNow w (S (ticks w)) = dateNow w (ticks w) →
  ∃ w1 w2 w3 a b,
    exec (saveUserFilter userId first) w =
      (w1, Fulfilled (User.savedFilters user ++ [a])) ∧
    exec (saveUserFilter userId second) w1 =
      (w2, Fulfilled (User.savedFilters user ++ [a; b])) ∧
    SavedFilter.id a = SavedFilter.id b ∧
    SavedFilter.label a = SavedFilter.label first ∧
    SavedFilter.label b = SavedFilter.label second ∧
    exec (deleteUserFilter userId (SavedFilter.id a)) w2 =
      (w3, Fulfilled (filter (λ f, SavedFilter.id f ≠ SavedFilter.id a)
                        (User.savedFilters user))) ∧
    User.savedFilters <$> users w3 !! userId =
      Some (filter (λ f, SavedFilter.id f ≠ SavedFilter.id a) (User.savedFilters user)).
Proof.
  intros Hu Hclock.
  eexists _, _, _, _, _. split; [by apply exec_saveUserFilter_found|].
  split.
  { erewrite exec_saveUserFilter_found by (cbn; apply lookup_insert_eq).
    change (User.savedFilters (setSavedFilters ?l _)) with l.
    rewrite <- app_assoc. reflexivity. }
  split; [cbn; by rewrite Hclock|].
  do 2 (split; [done|]).
  assert (∀ (l : list SavedFilter.t) a b,
            SavedFilter.id b = SavedFilter.id a →
            filter (λ f, SavedFilter.id f ≠ SavedFilter.id a) (l ++ [a; b]) =
            filter (λ f, SavedFilter.id f ≠ SavedFilter.id a) l) as Hboth.
  { intros l a b Hab.
    rewrite filter_app, !filter_cons_False, filter_nil, app_nil_r;
      [done|intros H; by apply H|intros H; by apply H]. }
  split.
  - erewrite exec_deleteUserFilter_found by (cbn; apply lookup_insert_eq).
    change (User.savedFilters (setSavedFilters ?l _)) with l.
    cbn [app].
    rewrite Hboth by (cbn; by rewrite Hclock). reflexivity.
  - cbn. by rewrite lookup_insert_eq.
Qed.

(** * What no call does *)

Lemma nothingLost_refl w : nothingLost w w.
Proof. by repeat split. Qed.

Lemma nothingLost_trans w1 w2 w3 :
  nothingLost w1 w2 → nothingLost w2 w3 → nothingLost w1 w3.
Proof.
  intros (Ht & Hr & Hu & Hp) (Ht' & Hr' & Hu' & Hp'). split_and!.
  - by etrans.
  - by etrans.
  - intros uid H. by apply Hu', Hu.
  - intros id H. by apply Hp', Hp.
Qed.

Lemma is_Some_insert {A : Type} (m : gmap string A) i j x :
  is_Some (m !! j) → is_Some (<[i := x]> m !! j).
Proof.
  intros H. rewrite lookup_insert. by case_decide.
Qed.

Lemma perform_nothingLost {X : Type} (e : Eff X) w : nothingLost w (perform e w).1.
Proof.
  unfold nothingLost.
  destruct e; cbn; repeat case_match; cbn; split_and!;
    try done; try (by apply prefix_app_r); intros ? ?; by apply is_Some_insert.
Qed.

Lemma exec_nothingLost {A : Type} (p : Async A) w : nothingLost w (exec p w).1.
Proof.
  revert w. induction p as [a|e|X e k IH]; intros w; try apply nothingLost_refl.
  cbn. pose proof (perform_nothingLost e w) as Hw.
  destruct (perform e w) as [w' [err|x]]; [done|].
  eapply nothingLost_trans; [exact Hw|apply IH].
Qed.

(** X23. No call of the [api] removes or rewrites what the log holds: the
    transaction records and the purchase requests stored before a call
    are all there after it, unchanged and in the same place, with any new
    ones after them; in particular a pending request is never resolved.
    No call deletes the document of an account or of a product either. *)
Theorem no_call_loses_records c w :
  transactions w `prefix_of` transactions (step c w) ∧
  requests w `prefix_of` requests (step c w) ∧
  (∀ i request, requests w !! i = Some request →
                requests (step c w) !! i = Some request) ∧
  (∀ uid, is_Some (users w !! uid) → is_Some (users (step c w) !! uid)) ∧
  (∀ id, is_Some (products w !! id) → is_Some (products (step c w) !! id)).
Proof.
  destruct (exec_nothingLost (program c) w) as (Ht & Hr & Hu & Hp).
  split_and!; try done.
  intros i request Hi. by eapply prefix_lookup_Some.
Qed.

Lemma keepsListing_refl p : keepsListing p p.
Proof. unfold keepsListing. split_and!; done. Qed.

Lemma keepsListing_trans p1 p2 p3 :
  keepsListing p1 p2 → keepsListing p2 p3 → keepsListing p1 p3.
Proof. unfold keepsListing. intros H1 H2. split_and!; try lia; intuition congruence. Qed.

Lemma keepsListing_incrementViewCount p : keepsListing p (incrementViewCount 1 p).
Proof. unfold keepsListing. cbn. split_and!; try done; lia. Qed.

Lemma keepsListing_incrementSalesCount p : keepsListing p (incrementSalesCount 1 p).
Proof. unfold keepsListing. cbn. split_and!; try done; lia. Qed.

Lemma keepsListing_markApproved p : keepsListing p (markApproved p).
Proof. unfold keepsListing. cbn. split_and!; done. Qed.

Lemma keepsListing_markRejected p : keepsListing p (markRejected p).
Proof. unfold keepsListing. cbn. split_and!; done. Qed.

Lemma perform_gentle {X : Type} (e : Eff X) w id p :
  gentleOn e → products w !! id = Some p →
  ∃ p', products (perform e w).1 !! id = Some p' ∧ keepsListing p p'.
Proof.
  intros He Hp.
  destruct e; cbn in *; try done;
    try (exists p; split; [done|apply keepsListing_refl]).
  - destruct (users w !! id0); exists p; (split; [done|apply keepsListing_refl]).
  - destruct (products w !! id0) as [q|] eqn:Hq; cbn.
    + destruct (decide (id0 = id)) as [->|Hne].
      * rewrite lookup_insert_eq. exists (f q). split; [done|].
        rewrite Hp in Hq. injection Hq as <-. apply He.
      * rewrite lookup_insert_ne by done. exists p. split; [done|apply keepsListing_refl].
    + exists p. split; [done|apply keepsListing_refl].
  - case_bool_decide; exists p; (split; [done|apply keepsListing_refl]).
  - destruct (filter _ _); exists p; (split; [done|apply keepsListing_refl]).
Qed.

Lemma exec_gentle {A : Type} (prog : Async A) w id p :
  gentle prog → products w !! id = Some p →
  ∃ p', products (exec prog w).1 !! id = Some p' ∧ keepsListing p p'.
Proof.
  revert w p. induction prog as [a|e|X e k IH]; intros w p Hg Hp;
    try (exists p; split; [done|apply keepsListing_refl]).
  destruct Hg as [He Hk]. cbn.
  destruct (perform_gentle e w id p He Hp) as (p1 & Hp1 & H1).
  destruct (perform e w) as [w' [err|x]]; cbn in *.
  - by exists p1.
  - destruct (IH x w' p1 (Hk x) Hp1) as (p2 & Hp2 & H2).
    exists p2. split; [done|]. by eapply keepsListing_trans.
Qed.

Lemma gentle_bind {A B : Type} (p : Async A) (k : A → Async B) :
  gentle p → (∀ a, gentle (k a)) → gentle (p ≫= k).
Proof.
  intros Hp Hk. induction p as [a|e|X e k' IH]; cbn; [apply Hk|done|].
  destruct Hp as [He Hk']. split; [done|]. intros x. apply IH, Hk'.
Qed.

Lemma gentle_getProductById id : gentle (getProductById id).
Proof.
  cbn. split; [done|]. intros [p|]; cbn; [|done].
  split; [|done]. apply keepsListing_incrementViewCount.
Qed.

Lemma gentle_forEachRequest docs : gentle (forEachRequest docs).
Proof.
  induction docs as [|d docs IH]; [done|].
  cbn [forEachRequest]. apply gentle_bind; [apply gentle_getProductById|].
  intros product. apply gentle_bind; [done|]. by intros results.
Qed.

Lemma gentle_createRequest userId productId paymentProof isWalletPurchase :
  gentle (createRequest userId productId paymentProof isWalletPurchase).
Proof.
  unfold createRequest. apply gentle_bind; [by cbn|]. intros user.
  apply gentle_bind; [apply gentle_getProductById|]. intros product.
  destruct user as [user|], product as [product|]; try done.
  destruct isWalletPurchase; [|by cbn].
  case_bool_decide; [done|].
  cbn. repeat (split; [try done|intros ?]); try done.
  apply keepsListing_incrementSalesCount.
Qed.

Lemma gentle_program c :
  (∀ userId userName productData, c ≠ CallSubmitProduct userId userName productData) →
  gentle (program c).
Proof.
  intros Hc. destruct c; cbn [program]; unfold discard;
    (apply gentle_bind; [|done]).
  - unfold register. destruct (missing password); cbn; [done|].
    repeat (split; [done|intros ?]). done.
  - cbn. split; [done|]. intros [u|]; cbn; [done|].
    repeat (split; [done|intros ?]). done.
  - cbn. repeat (split; [done|intros ?]). done.
  - cbn. split; [done|]. intros [u|]; cbn; [|done].
    case_bool_decide; cbn; [done|]. repeat (split; [done|intros ?]). done.
  - apply gentle_getProductById.
  - by edestruct Hc.
  - cbn. repeat (split; [done|intros ?]). done.
  - apply gentle_createRequest.
  - unfold getUserPurchases. split; [done|]. intros docs.
    change (gentle (forEachRequest docs ≫= λ results,
              mret (omap (M:=list) (λ r : option PurchasedProduct, r) results))).
    apply gentle_bind; [apply gentle_forEachRequest|done].
  - cbn. split; [|done]. apply keepsListing_markApproved.
  - cbn. split; [|done]. apply keepsListing_markRejected.
  - cbn. split; [done|]. intros [u|]; cbn; [|done]. repeat (split; [done|intros ?]). done.
  - cbn. split; [done|]. intros [u|]; cbn; [|done]. repeat (split; [done|intros ?]). done.
  - cbn. split; [done|]. intros [u|]; cbn; [|done]. repeat (split; [done|intros ?]). done.
Qed.

(** X24. Once a product is stored, no call of the [api] changes its title,
    description, price, link, seller, category, creation time or ratings,
    and none lowers its view or sales count; moderation, views and sales
    are all a call can move.  ([submitProduct] writes under a generated
    id: the id generated next is taken to be unused.) *)
Theorem products_keep_their_listing c w id product :
  products w !! id = Some product →
  products w !! autoId w (nextId w) = None →
  ∃ product', products (step c w) !! id = Some product' ∧ keepsListing product product'.
Proof.
  intros Hp Hfresh. unfold step.
  assert ((∃ userId userName productData,
             c = CallSubmitProduct userId userName productData) ∨
          (∀ userId userName productData,
             c ≠ CallSubmitProduct userId userName productData))
    as [(userId & userName & productData & ->)|Hc]
    by (destruct c; eauto; right; intros; discriminate).
  - cbn [program]. rewrite exec_discard, exec_submitProduct. cbn.
    exists product. split; [|apply keepsListing_refl].
    rewrite lookup_insert_ne; [done|]. intros Heq. congruence.
  - apply exec_gentle; [|done]. by apply gentle_program.
Qed.

(** * Profiles *)

Section Respects.
Context (okSet : string → User.t → Prop) (okUpdate : (User.t → User.t) → Prop).

Lemma respects_bind {A B : Type} (p : Async A) (k : A → Async B) :
  respects okSet okUpdate p → (∀ a, respects okSet okUpdate (k a)) →
  respects okSet okUpdate (p ≫= k).
Proof.
  intros Hp Hk. induction p as [a|e|X e k' IH]; cbn; [apply Hk|done|].
  destruct Hp as [He Hk']. split; [done|]. intros x. apply IH, Hk'.
Qed.

Lemma respects_getProductById id : respects okSet okUpdate (getProductById id).
Proof. cbn. split; [done|]. intros [p|]; cbn; auto. Qed.

Lemma respects_forEachRequest docs : respects okSet okUpdate (forEachRequest docs).
Proof.
  induction docs as [|d docs IH]; [done|].
  cbn [forEachRequest]. apply respects_bind; [apply respects_getProductById|].
  intros product. apply respects_bind; [done|]. by intros results.
Qed.

Hypothesis ok_incrementWalletBalance : ∀ n, okUpdate (incrementWalletBalance n).
Hypothesis ok_activatePro : ∀ n e, okUpdate (activatePro n e).
Hypothesis ok_setWishlist : ∀ l, okUpdate (setWishlist l).
Hypothesis ok_setSavedFilters : ∀ l, okUpdate (setSavedFilters l).
Hypothesis ok_setNotificationSettings : ∀ s, okUpdate (setNotificationSettings s).

Lemma respects_createRequest userId productId paymentProof isWalletPurchase :
  respects okSet okUpdate (createRequest userId productId paymentProof isWalletPurchase).
Proof.
  unfold createRequest. apply respects_bind; [by cbn|]. intros user.
  apply respects_bind; [apply respects_getProductById|]. intros product.
  destruct user as [user|], product as [product|]; try done.
  destruct isWalletPurchase; [|by cbn].
  case_bool_decide; [done|].
  cbn. repeat (split; [try done|intros ?]); done.
Qed.

(** The calls that create no profile. *)
Lemma respects_updates c :
  (∀ name email password, c ≠ CallRegister name email password) →
  (∀ firebaseUser, c ≠ CallSyncExternalUser firebaseUser) →
  respects okSet okUpdate (program c).
Proof.
  intros Hregister Hsync. destruct c; cbn [program]; unfold discard;
    (apply respects_bind; [|done]).
  - by edestruct Hregister.
  - by edestruct Hsync.
  - cbn. repeat (split; [done|intros ?]). done.
  - cbn. split; [done|]. intros [u|]; cbn; [|done].
    case_bool_decide; cbn; [done|]. repeat (split; [done|intros ?]). done.
  - apply respects_getProductById.
  - cbn. repeat (split; [done|intros ?]). done.
  - cbn. repeat (split; [done|intros ?]). done.
  - apply respects_createRequest.
  - unfold getUserPurchases. split; [done|]. intros docs.
    change (respects okSet okUpdate
              (forEachRequest docs ≫= λ results,
                 mret (omap (M:=list) (λ r : option PurchasedProduct, r) results))).
    apply respects_bind; [apply respects_forEachRequest|done].
  - cbn. auto.
  - cbn. auto.
  - cbn. split; [done|]. intros [u|]; cbn; [|done]. repeat (split; [done|intros ?]). done.
  - cbn. split; [done|]. intros [u|]; cbn; [|done]. repeat (split; [done|intros ?]). done.
  - cbn. split; [done|]. intros [u|]; cbn; [|done]. repeat (split; [done|intros ?]). done.
Qed.

Hypothesis ok_new : ∀ uid name email bio joined avatar,
  okSet uid (User.mk uid name email bio USER joined [] [] 0 avatar 50 false None
               defaultSettings None).

Lemma respects_program c : respects okSet okUpdate (program c).
Proof.
  destruct c; try (apply respects_updates; intros; discriminate);
    cbn [program]; unfold discard; (apply respects_bind; [|done]).
  - unfold register. destruct (missing password); cbn; [done|].
    repeat (split; [done|intros ?]). done.
  - cbn. split; [done|]. intros [u|]; cbn; [done|].
    repeat (split; [done|intros ?]). done.
Qed.

End Respects.

Lemma exec_respects_invariant (P : string → User.t → Prop) {A : Type} (p : Async A) w :
  respects P (λ f, ∀ id u, P id u → P id (f u)) p →
  (∀ id u, users w !! id = Some u → P id u) →
  ∀ id u, users (exec p w).1 !! id = Some u → P id u.
Proof.
  revert w. induction p as [a|e|X e k IH]; intros w Hp Hw; [done..|].
  destruct Hp as [He Hk]. cbn.
  assert (∀ id u, users (perform e w).1 !! id = Some u → P id u) as Hnext.
  { destruct e; cbn in *; try done.
    - intros i u0. rewrite lookup_insert. case_decide; [|by apply Hw].
      intros [= <-]. by subst.
    - destruct (users w !! id) as [u0|] eqn:Hu0; [|done]. cbn.
      intros i u1. rewrite lookup_insert. case_decide; [|by apply Hw].
      intros [= <-]. subst. by apply He, Hw.
    - destruct (products w !! id); done.
    - case_bool_decide; done.
    - destruct (filter _ _); done. }
  destruct (perform e w) as [w1 [err|x]]; [done|]. by apply IH.
Qed.

Lemma plainProfile_updates :
  (∀ n id u, plainProfile id u → plainProfile id (incrementWalletBalance n u)) ∧
  (∀ n e id u, plainProfile id u → plainProfile id (activatePro n e u)) ∧
  (∀ l id u, plainProfile id u → plainProfile id (setWishlist l u)) ∧
  (∀ l id u, plainProfile id u → plainProfile id (setSavedFilters l u)) ∧
  (∀ s id u, plainProfile id u → plainProfile id (setNotificationSettings s u)).
Proof.
  unfold plainProfile. split_and!; intros; destruct u; cbn in *;
    intuition (try done; eauto).
Qed.

(** X25. In every store reached by calls of the [api], each profile is
    filed under its own uid, is an ordinary user (no call makes an
    administrator) of reputation 50 (no call changes a reputation), has no
    Pro metrics, and is Pro exactly when it has an expiry. *)
Theorem reachable_profiles_are_plain w uid user :
  reachable w →
  users w !! uid = Some user →
  User.uid user = uid ∧ User.role user = USER ∧ User.reputation user = 50 ∧
  (User.isPro user = true ↔ is_Some (User.proExpiry user)) ∧
  User.proMetrics user = None.
Proof.
  intros Hw. revert uid user.
  change (∀ uid user, users w !! uid = Some user → plainProfile uid user).
  induction Hw as [ids uids clock Hinj|c w _ IH Hc|email w _ IH].
  - intros uid user Hu. cbn in Hu. by rewrite lookup_empty in Hu.
  - unfold step.
    apply (exec_respects_invariant plainProfile); [|exact IH].
    destruct plainProfile_updates as (H1 & H2 & H3 & H4 & H5).
    apply respects_program; [exact H1|exact H2|exact H3|exact H4|exact H5|].
    intros. unfold plainProfile. cbn. split_and!; try done.
  - unfold providerSignIn. by case_bool_decide.
Qed.

Lemma sameIdentity_refl u : sameIdentity u u.
Proof. unfold sameIdentity. split_and!; done. Qed.

Lemma sameIdentity_trans u1 u2 u3 :
  sameIdentity u1 u2 → sameIdentity u2 u3 → sameIdentity u1 u3.
Proof. unfold sameIdentity. intuition congruence. Qed.

Lemma exec_respects_identity {A : Type} (p : Async A) w id u :
  respects (λ _ _, False) (λ f, ∀ u, sameIdentity u (f u)) p →
  users w !! id = Some u →
  ∃ u', users (exec p w).1 !! id = Some u' ∧ sameIdentity u u'.
Proof.
  revert w u. induction p as [a|e|X e k IH]; intros w u Hp Hu;
    try (exists u; split; [done|apply sameIdentity_refl]).
  destruct Hp as [He Hk]. cbn.
  assert (∃ u1, users (perform e w).1 !! id = Some u1 ∧ sameIdentity u u1)
    as (u1 & Hu1 & H1).
  { destruct e; cbn in *; try done;
      try (exists u; split; [done|apply sameIdentity_refl]).
    - destruct (users w !! id0) as [u0|] eqn:Hu0; cbn;
        [|exists u; split; [done|apply sameIdentity_refl]].
      destruct (decide (id0 = id)) as [->|Hne].
      + rewrite lookup_insert_eq. exists (f u0). split; [done|].
        rewrite Hu in Hu0. injection Hu0 as <-. apply He.
      + rewrite lookup_insert_ne by done.
        exists u. split; [done|apply sameIdentity_refl].
    - destruct (products w !! id0); exists u; (split; [done|apply sameIdentity_refl]).
    - case_bool_decide; exists u; (split; [done|apply sameIdentity_refl]).
    - destruct (filter _ _); exists u; (split; [done|apply sameIdentity_refl]). }
  destruct (perform e w) as [w1 [err|x]]; cbn in *.
  - by exists u1.
  - destruct (IH x w1 u1 (Hk x) Hu1) as (u2 & Hu2 & H2).
    exists u2. split; [done|]. by eapply sameIdentity_trans.
Qed.

(** X26. In every store reached by calls of the [api], a call keeps every
    profile there is and its identity: uid, name, e-mail, biography, role,
    join time, avatar and reputation stay as they are, whoever the call is
    made for, and a profile that is Pro stays Pro: no call checks or ends
    a subscription. *)
Theorem calls_keep_identities c w uid user :
  reachable w →
  users w !! uid = Some user →
  ∃ user',
    users (step c w) !! uid = Some user' ∧
    User.uid user' = User.uid user ∧ User.name user' = User.name user ∧
    User.email user' = User.email user ∧ User.bio user' = User.bio user ∧
    User.role user' = User.role user ∧ User.joinedAt user' = User.joinedAt user ∧
    User.avatar user' = User.avatar user ∧
    User.reputation user' = User.reputation user ∧
    (User.isPro user = true → User.isPro user' = true).
Proof.
  intros Hw Hu.
  change (∃ user', users (step c w) !! uid = Some user' ∧ sameIdentity user user').
  destruct (reachable_invariant w Hw) as [Hauth _].
  pose proof (next_uid_fresh w Hauth) as Hfresh.
  unfold step.
  assert ((∃ name email password, c = CallRegister name email password) ∨
          (∃ firebaseUser, c = CallSyncExternalUser firebaseUser) ∨
          ((∀ name email password, c ≠ CallRegister name email password) ∧
           (∀ firebaseUser, c ≠ CallSyncExternalUser firebaseUser)))
    as [(name & email & password & ->)|[(firebaseUser & ->)|[Hr Hs]]]
    by (destruct c; eauto 6; right; right; split; intros; discriminate).
  - cbn [program]. rewrite exec_discard. unfold register.
    destruct (missing password);
      [exists user; split; [done|apply sameIdentity_refl]|].
    destruct w as [us ps ts rs accounts n t ids uids clock]; cbn in *.
    case_bool_decide; cbn; (exists user; split; [|apply sameIdentity_refl]); [done|].
    rewrite lookup_insert_ne; [done|]. intros Heq. congruence.
  - cbn [program]. rewrite exec_discard. unfold syncExternalUser.
    destruct w as [us ps ts rs accounts n t ids uids clock]; cbn in *.
    destruct (us !! FirebaseUser.uid firebaseUser) as [stored|] eqn:Hstored; cbn;
      (exists user; split; [|apply sameIdentity_refl]); [done|].
    rewrite lookup_insert_ne; [done|]. intros Heq. congruence.
  - apply exec_respects_identity; [|done].
    apply respects_updates; try done;
      intros; unfold sameIdentity; destruct u; cbn; split_and!; done.
Qed.

(** * The shop again *)


Lemma reachable_shopPro : reachable shopPro.
Proof.
  unfold shopPro, shop1000. do 2 (apply reachable_call; [|done]). apply reachable_shop.
Qed.


(** The e-mail of the shop's account is taken. *)
Lemma register_refused_witness :
  (missing (Some "secret2") = true ∨
   "alice@example.org" ∈ (AuthAccount.email <$> authAccounts shop)) ∧
  exec (register "Alice II" "alice@example.org" (Some "secret2")) shop =
    (shop, if missing (Some "secret2") then Fulfilled None
           else Rejected (FirebaseError "auth/email-already-in-use")) ∧
  (missing (Some "secret2") = true →
   exec (login "alice@example.org" (Some "secret2")) shop = (shop, Fulfilled None)).
Proof.
  assert (missing (Some "secret2") = true ∨
          "alice@example.org" ∈ (AuthAccount.email <$> authAccounts shop)) as Hcase.
  { right. apply (bool_decide_unpack _). vm_compute. exact I. }
  split; [exact Hcase|].
  exact (register_refused "Alice II" "alice@example.org" (Some "secret2") shop Hcase).
Defined.

(** Two settings written one after the other. *)
Lemma updateNotificationSettings_last_write_wins_witness :
  users shop !! "0" = Some (alice 500 []) ∧
  ∃ w1 w2 user2,
    exec (updateNotificationSettings "0" (NotificationSettings.mk false true true)) shop =
      (w1, Fulfilled (Some (setNotificationSettings
                              (NotificationSettings.mk false true true) (alice 500 [])))) ∧
    exec (updateNotificationSettings "0" (NotificationSettings.mk false false false)) w1 =
      (w2, Fulfilled (Some user2)) ∧
    exec (updateNotificationSettings "0" (NotificationSettings.mk false false false)) shop =
      (w2, Fulfilled (Some user2)) ∧
    exec (getSellerData "0") w2 = (w2, Fulfilled (Some user2)) ∧
    User.notificationSettings user2 = NotificationSettings.mk false false false ∧
    User.walletBalance user2 = User.walletBalance (alice 500 []) ∧
    User.isPro user2 = User.isPro (alice 500 []) ∧
    User.proExpiry user2 = User.proExpiry (alice 500 []) ∧
    User.wishlist user2 = User.wishlist (alice 500 []) ∧
    User.savedFilters user2 = User.savedFilters (alice 500 []).
Proof.
  assert (users shop !! "0" = Some (alice 500 [])) as Hu by (vm_compute; reflexivity).
  split; [exact Hu|].
  exact (updateNotificationSettings_last_write_wins "0"
           (NotificationSettings.mk false true true)
           (NotificationSettings.mk false false false) shop _ Hu).
Defined.

(** A user id the shop does not know. *)
Lemma unknown_account_witness :
  users shop !! "nobody" = None ∧
  exec (toggleWishlist "nobody" "doc0") shop = (shop, Fulfilled []) ∧
  exec (saveUserFilter "nobody" cheapFilter) shop = (shop, Fulfilled []) ∧
  exec (deleteUserFilter "nobody" "filt7") shop = (shop, Fulfilled []) ∧
  exec (upgradeToPro "nobody") shop = (shop, Fulfilled None) ∧
  exec (addFunds "nobody" 100) shop = (shop, Rejected (FirebaseError "not-found")) ∧
  exec (updateNotificationSettings "nobody" defaultSettings) shop =
    (shop, Rejected (FirebaseError "not-found")).
Proof.
  assert (users shop !! "nobody" = None) as Hu by (vm_compute; reflexivity).
  split; [exact Hu|].
  exact (unknown_account "nobody" "doc0" cheapFilter "filt7" 100 defaultSettings shop Hu).
Defined.

(** A product id the shop does not know. *)
Lemma unknown_product_witness :
  products shop !! "doc9" = None ∧
  exec (getProductById "doc9") shop = (shop, Fulfilled None) ∧
  exec (approveProduct "doc9") shop = (shop, Rejected (FirebaseError "not-found")) ∧
  exec (rejectProduct "doc9") shop = (shop, Rejected (FirebaseError "not-found")) ∧
  exec (createRequest "0" "doc9" None true) shop =
    (shop, Rejected (JsError "Entity missing")).
Proof.
  assert (products shop !! "doc9" = None) as Hp by (vm_compute; reflexivity).
  split; [exact Hp|].
  exact (unknown_product "0" "doc9" None true shop Hp).
Defined.


(** The approved product, rejected and approved again. *)
Lemma rejection_delists_and_flag_stays_witness :
  products shop !! "doc0" = Some (shaderPack true 0 0) ∧
  ∃ w1 w2 relisted,
    exec (rejectProduct "doc0") shop = (w1, Fulfilled true) ∧
    ("doc0" ∉ docId <$>
       getPublicProducts (λ s, s) (Filters.mk (Some "shader") None None) w1) ∧
    exec (approveProduct "doc0") w1 = (w2, Fulfilled true) ∧
    products w2 !! "doc0" = Some relisted ∧
    Product.approved relisted = true ∧
    Product.rejected relisted = Some true ∧
    Product.price relisted = Product.price (shaderPack true 0 0) ∧
    Product.salesCount relisted = Product.salesCount (shaderPack true 0 0) ∧
    Product.viewCount relisted = Product.viewCount (shaderPack true 0 0) ∧
    withId "doc0" relisted ∈
      getPublicProducts (λ s, s) (Filters.mk None None (Some "PriceLow")) w2.
Proof.
  assert (products shop !! "doc0" = Some (shaderPack true 0 0)) as Hp
    by (vm_compute; reflexivity).
  split; [exact Hp|].
  exact (rejection_delists_and_flag_stays (λ s, s) (Filters.mk (Some "shader") None None)
           (Some "PriceLow") "doc0" shop _ Hp).
Defined.

(** A payment proof for the pending product, balance 500 against 999. *)
Lemma createRequest_payment_proof_witness :
  users shopPending !! "0" = Some (alice 500 []) ∧
  products shopPending !! "doc0" = Some (shaderPack false 0 0) ∧
  ∃ w' request,
    exec (createRequest "0" "doc0" (Some "upi-7731") false) shopPending =
      (w', Fulfilled request) ∧
    requests w' = requests shopPending ++ [request] ∧
    docId request = autoId shopPending (nextId shopPending) ∧
    Request.userId (docData request) = "0" ∧
    Request.productId (docData request) = "doc0" ∧
    Request.status (docData request) = PENDING ∧
    Request.approvedAt (docData request) = None ∧
    Request.isWalletPurchase (docData request) = false ∧
    Request.paymentProof (docData request) = orString (Some "upi-7731") "" ∧
    Request.createdAt (docData request) = dateNow shopPending (ticks shopPending) ∧
    users w' = users shopPending ∧
    transactions w' = transactions shopPending ∧
    products w' =
      <["doc0" := incrementViewCount 1 (shaderPack false 0 0)]> (products shopPending) ∧
    Product.salesCount (incrementViewCount 1 (shaderPack false 0 0)) =
      Product.salesCount (shaderPack false 0 0).
Proof.
  assert (users shopPending !! "0" = Some (alice 500 [])) as Hu
    by (vm_compute; reflexivity).
  assert (products shopPending !! "doc0" = Some (shaderPack false 0 0)) as Hp
    by (vm_compute; reflexivity).
  split_and!; [exact Hu | exact Hp |].
  exact (createRequest_payment_proof "0" "doc0" (Some "upi-7731") shopPending _ _ Hu Hp).
Defined.


(** Balance 2500, upgraded twice. *)
Lemma upgradeToPro_again_witness :
  users shop2500 !! "0" = Some (alice 2500 []) ∧
  1998 ≤ User.walletBalance (alice 2500 []) ∧
  ∃ w1 user1 w2 user2,
    exec (upgradeToPro "0") shop2500 = (w1, Fulfilled (Some user1)) ∧
    User.isPro user1 = true ∧
    User.proExpiry user1 = Some (dateNow shop2500 (ticks shop2500) + 365 * 86400000) ∧
    exec (upgradeToPro "0") w1 = (w2, Fulfilled (Some user2)) ∧
    users w2 !! "0" = Some user2 ∧
    User.walletBalance user2 = User.walletBalance (alice 2500 []) - 1998 ∧
    User.isPro user2 = true ∧
    User.proExpiry user2 =
      Some (dateNow shop2500 (S (S (ticks shop2500))) + 365 * 86400000) ∧
    transactions w2 =
      transactions shop2500 ++
      [withId (autoId shop2500 (nextId shop2500))
         (Transaction.mk "0" (-999) subscription
            "Elite Pro Subscription (1 Year)" (dateNow shop2500 (S (ticks shop2500))));
       withId (autoId shop2500 (S (nextId shop2500)))
         (Transaction.mk "0" (-999) subscription
            "Elite Pro Subscription (1 Year)"
            (dateNow shop2500 (S (S (S (ticks shop2500))))))].
Proof.
  assert (users shop2500 !! "0" = Some (alice 2500 [])) as Hu by (vm_compute; reflexivity).
  assert (1998 ≤ User.walletBalance (alice 2500 [])) as Hb by (vm_compute; discriminate).
  split_and!; [exact Hu | exact Hb |].
  exact (upgradeToPro_again "0" shop2500 _ Hu Hb).
Defined.

(** A second filter saved beside the first one, and deleted again. *)
Lemma saveUserFilter_then_delete_witness :
  users shopFiltered !! "0" = Some (setSavedFilters [cheapFilter] (alice 500 [])) ∧
  ("filt" +:+ pretty (dateNow shopFiltered (ticks shopFiltered)) ∉
     SavedFilter.id <$> User.savedFilters (setSavedFilters [cheapFilter] (alice 500 []))) ∧
  ∃ w1 saved w2,
    exec (saveUserFilter "0" (SavedFilter.mk "" "Tools" "plugin" "Tools")) shopFiltered =
      (w1, Fulfilled
             (User.savedFilters (setSavedFilters [cheapFilter] (alice 500 [])) ++ [saved])) ∧
    users w1 !! "0" =
      Some (setSavedFilters
              (User.savedFilters (setSavedFilters [cheapFilter] (alice 500 [])) ++ [saved])
              (setSavedFilters [cheapFilter] (alice 500 []))) ∧
    SavedFilter.id saved = "filt" +:+ pretty (dateNow shopFiltered (ticks shopFiltered)) ∧
    SavedFilter.label saved = SavedFilter.label (SavedFilter.mk "" "Tools" "plugin" "Tools") ∧
    SavedFilter.searchTerm saved =
      SavedFilter.searchTerm (SavedFilter.mk "" "Tools" "plugin" "Tools") ∧
    SavedFilter.category saved =
      SavedFilter.category (SavedFilter.mk "" "Tools" "plugin" "Tools") ∧
    exec (deleteUserFilter "0" (SavedFilter.id saved)) w1 =
      (w2, Fulfilled (User.savedFilters (setSavedFilters [cheapFilter] (alice 500 [])))) ∧
    users w2 = users shopFiltered.
Proof.
  assert (users shopFiltered !! "0" = Some (setSavedFilters [cheapFilter] (alice 500 [])))
    as Hu by (vm_compute; reflexivity).
  assert ("filt" +:+ pretty (dateNow shopFiltered (ticks shopFiltered)) ∉
            SavedFilter.id <$>
              User.savedFilters (setSavedFilters [cheapFilter] (alice 500 []))) as Hfresh.
  { apply (bool_decide_unpack _). vm_compute. exact I. }
  split; [exact Hu|]. split; [exact Hfresh|].
  exact (saveUserFilter_then_delete "0" (SavedFilter.mk "" "Tools" "plugin" "Tools")
           shopFiltered _ Hu Hfresh).
Defined.

(** Two filters saved while the clock stands still. *)
Lemma saveUserFilter_same_instant_witness :
  users shopStalled !! "0" = Some (alice 500 []) ∧
  dateNow shopStalled (S (ticks shopStalled)) = dateNow shopStalled (ticks shopStalled) ∧
  ∃ w1 w2 w3 a b,
    exec (saveUserFilter "0" (SavedFilter.mk "" "Cheap" "shader" "All")) shopStalled =
      (w1, Fulfilled (User.savedFilters (alice 500 []) ++ [a])) ∧
    exec (saveUserFilter "0" (SavedFilter.mk "" "Tools" "plugin" "Tools")) w1 =
      (w2, Fulfilled (User.savedFilters (alice 500 []) ++ [a; b])) ∧
    SavedFilter.id a = SavedFilter.id b ∧
    SavedFilter.label a = SavedFilter.label (SavedFilter.mk "" "Cheap" "shader" "All") ∧
    SavedFilter.label b = SavedFilter.label (SavedFilter.mk "" "Tools" "plugin" "Tools") ∧
    exec (deleteUserFilter "0" (SavedFilter.id a)) w2 =
      (w3, Fulfilled (filter (λ f, SavedFilter.id f ≠ SavedFilter.id a)
                        (User.savedFilters (alice 500 [])))) ∧
    User.savedFilters <$> users w3 !! "0" =
      Some (filter (λ f, SavedFilter.id f ≠ SavedFilter.id a)
              (User.savedFilters (alice 500 []))).
Proof.
  assert (users shopStalled !! "0" = Some (alice 500 [])) as Hu
    by (vm_compute; reflexivity).
  assert (dateNow shopStalled (S (ticks shopStalled)) =
          dateNow shopStalled (ticks shopStalled)) as Hclock by reflexivity.
  split; [exact Hu|]. split; [exact Hclock|].
  exact (saveUserFilter_same_instant "0" (SavedFilter.mk "" "Cheap" "shader" "All")
           (SavedFilter.mk "" "Tools" "plugin" "Tools") shopStalled _ Hu Hclock).
Defined.

(** The approved product is bought from the wallet and stays listed. *)
Lemma products_keep_their_listing_witness :
  products shop !! "doc0" = Some (shaderPack true 0 0) ∧
  products shop !! autoId shop (nextId shop) = None ∧
  ∃ product',
    products (step (CallCreateRequest "0" "doc0" None true) shop) !! "doc0" =
      Some product' ∧
    keepsListing (shaderPack true 0 0) product'.
Proof.
  assert (products shop !! "doc0" = Some (shaderPack true 0 0)) as Hp
    by (vm_compute; reflexivity).
  assert (products shop !! autoId shop (nextId shop) = None) as Hfresh
    by (vm_compute; reflexivity).
  split; [exact Hp|]. split; [exact Hfresh|].
  exact (products_keep_their_listing (CallCreateRequest "0" "doc0" None true) shop
           "doc0" _ Hp Hfresh).
Defined.

(** The profile of the shop's user after the upgrade. *)
Lemma reachable_profiles_are_plain_witness :
  reachable shopPro ∧
  users shopPro !! "0" = Some alicePro ∧
  User.uid alicePro = "0" ∧ User.role alicePro = USER ∧ User.reputation alicePro = 50 ∧
  (User.isPro alicePro = true ↔ is_Some (User.proExpiry alicePro)) ∧
  User.proMetrics alicePro = None.
Proof.
  assert (users shopPro !! "0" = Some alicePro) as Hu by (vm_compute; reflexivity).
  split; [exact reachable_shopPro|]. split; [exact Hu|].
  exact (reachable_profiles_are_plain shopPro "0" alicePro reachable_shopPro Hu).
Defined.

(** A deposit after the upgrade. *)
Lemma calls_keep_identities_witness :
  reachable shopPro ∧
  users shopPro !! "0" = Some alicePro ∧
  ∃ user',
    users (step (CallAddFunds "0" 5) shopPro) !! "0" = Some user' ∧
    User.uid user' = User.uid alicePro ∧ User.name user' = User.name alicePro ∧
    User.email user' = User.email alicePro ∧ User.bio user' = User.bio alicePro ∧
    User.role user' = User.role alicePro ∧ User.joinedAt user' = User.joinedAt alicePro ∧
    User.avatar user' = User.avatar alicePro ∧
    User.reputation user' = User.reputation alicePro ∧
    (User.isPro alicePro = true → User.isPro user' = true).
Proof.
  assert (users shopPro !! "0" = Some alicePro) as Hu by (vm_compute; reflexivity).
  split; [exact reachable_shopPro|]. split; [exact Hu|].
  exact (calls_keep_identities (CallAddFunds "0" 5) shopPro "0" alicePro
           reachable_shopPro Hu).
Defined.
